(** * FlickPick: the session store, the detail page and the signup form

    A shallow embedding of [src/contexts/AuthContext.tsx],
    [src/pages/DetailPage.tsx] and the signup form component, with the
    properties of the session store's state machine and of the two views
    that consume it.

    Conventions.
    - A React state cell is a record field; a setter is a function on the
      record.  An [async] function is cut at its [await]: the value the
      awaited promise settles with is an argument of the embedding.
    - The functions of the context value are closures over the [user] of the
      render that created them; that captured value is an explicit argument.
    - Content ids are integers ([Z]); on integers JavaScript's [!==] and
      [Array.prototype.includes] agree with [Z.eqb].
    - A string is its sequence of code units, one [ascii] per unit. *)

From Stdlib Require Import ZArith List String Bool Lia.
Import ListNotations.

Local Open Scope Z_scope.
Local Open Scope string_scope.
Local Open Scope list_scope.

(** ** JavaScript values shared by the three components *)

Module Js.

(** What a [catch] clause receives. *)
Definition Error : Type := string.

(** How an awaited promise settles. *)
Inductive Awaited (A : Type) : Type :=
| Resolved (a : A)
| Rejected (e : Error).
Arguments Resolved {A} a.
Arguments Rejected {A} e.

(** How an [async] function of the program ends. *)
Inductive Completion (A : Type) : Type :=
| Returned (a : A)
| Thrown (e : Error).
Arguments Returned {A} a.
Arguments Thrown {A} e.

(** The empty string is falsy, every other string is truthy. *)
Definition truthy (s : string) : bool := negb (s =? "")%string.

(** [a || b] where [a] may be [undefined] and [b] is a string. *)
Definition or_str (a : option string) (b : string) : string :=
  match a with
  | Some s => if truthy s then s else b
  | None => b
  end.

(** [a || b] where [a] may be [undefined] or [null] and every present
    value is truthy (arrays) or equal to the default ([false]). *)
Definition or_default {A : Type} (a : option A) (b : A) : A :=
  match a with
  | Some x => x
  | None => b
  end.

End Js.

(** ** The session store: [AuthContext.tsx] *)

Module AuthContext.
Import Js.

Record UserProfile : Type := mkUserProfile {
  id : string;
  username : string;
  email : string;
  avatar : string;
  genre_preferences : list Z;
  onboarding_completed : bool;
  watchlist : list Z
}.

(** [Partial<UserProfile>]; also the payload of a [profiles] update. *)
Record PartialUserProfile : Type := mkPartial {
  upd_id : option string;
  upd_username : option string;
  upd_email : option string;
  upd_avatar : option string;
  upd_genre_preferences : option (list Z);
  upd_onboarding_completed : option bool;
  upd_watchlist : option (list Z)
}.

(** [{ ...user, ...updates }] *)
Definition spread (u : UserProfile) (p : PartialUserProfile) : UserProfile :=
  {| id := or_default (upd_id p) (id u);
     username := or_default (upd_username p) (username u);
     email := or_default (upd_email p) (email u);
     avatar := or_default (upd_avatar p) (avatar u);
     genre_preferences :=
       or_default (upd_genre_preferences p) (genre_preferences u);
     onboarding_completed :=
       or_default (upd_onboarding_completed p) (onboarding_completed u);
     watchlist := or_default (upd_watchlist p) (watchlist u) |}.

(** The provider's [User] and [Session], as far as the store reads them. *)
Record User : Type := mkUser {
  user_id : string;
  user_email : option string
}.

Record Session : Type := mkSession {
  access_token : string;
  session_user : option User
}.

(** A row of the [profiles] table; nullable columns are options. *)
Record ProfileRow : Type := mkRow {
  row_id : string;
  row_username : string;
  row_avatar : option string;
  row_genre_preferences : option (list Z);
  row_onboarding_completed : option bool;
  row_watchlist : option (list Z)
}.

(** The shape every backend call resolves with: [{ data, error }]. *)
Record Response (D : Type) : Type := mkResponse {
  data : D;
  error : option Error
}.
Arguments mkResponse {D} data error.
Arguments data {D} r.
Arguments error {D} r.

Definition SelectResponse : Type := Response (option ProfileRow).
Definition UpdateResponse : Type := Response (list ProfileRow).
Definition AuthResponse : Type := Response (option User).
Definition SignOutResponse : Type := Response unit.

(** The three state cells of [AuthProvider]. *)
Record Store : Type := mkStore {
  user : option UserProfile;
  session : option Session;
  loading : bool
}.

Definition setUser (v : option UserProfile) (st : Store) : Store :=
  {| user := v; session := session st; loading := loading st |}.

Definition setSession (v : option Session) (st : Store) : Store :=
  {| user := user st; session := v; loading := loading st |}.

Definition setLoading (v : bool) (st : Store) : Store :=
  {| user := user st; session := session st; loading := v |}.

(** What the store does to the outside world. *)
Inductive Effect : Type :=
| AuthGetSession
| AuthSignOut (scope : string)
| AuthSignInWithPassword (email password : string)
| AuthSignUp (email password username : string)
| ProfilesSelect (eq_id : string)
| ProfilesUpdate (eq_id : string) (payload : PartialUserProfile)
| LocationHref (href : string)
| ConsoleLog (msg : string)
| ConsoleError (msg : string) (e : Error).

(** The outcome of one operation run to its end. *)
Record Run (A : Type) : Type := mkRun {
  final : Store;
  effects : list Effect;
  completion : Completion A
}.
Arguments mkRun {A} final effects completion.
Arguments final {A} r.
Arguments effects {A} r.
Arguments completion {A} r.

(** *** [loadUserProfile], from its [await] on *)

Definition profile_of_row (authUser : User) (profile : ProfileRow)
  : UserProfile :=
  {| id := row_id profile;
     username := row_username profile;
     email := or_str (user_email authUser) "";
     avatar := or_str (row_avatar profile) "👤";
     genre_preferences := or_default (row_genre_preferences profile) [];
     onboarding_completed :=
       or_default (row_onboarding_completed profile) false;
     watchlist := or_default (row_watchlist profile) [] |}.

Definition loadUserProfile (authUser : User) (reply : Awaited SelectResponse)
    (st : Store) : Store * list Effect :=
  match reply with
  | Rejected e => (st, [ConsoleError "Error in loadUserProfile:" e])
  | Resolved r =>
      match error r with
      | Some e => (st, [ConsoleError "Error loading profile:" e])
      | None =>
          match data r with
          | Some profile =>
              (setUser (Some (profile_of_row authUser profile)) st, [])
          | None => (st, [])
          end
      end
  end.

(** *** Operations that do not read [user] *)

(** [login]: the first reply is that of the clean-up sign-out, the second
    that of the credential sign-in. *)
Definition login (email password : string)
    (cleanup : Awaited SignOutResponse) (reply : Awaited AuthResponse)
    (st : Store) : Run bool :=
  match cleanup with
  | Rejected e =>
      mkRun st [AuthSignOut "global"; ConsoleError "Login error:" e]
        (Thrown e)
  | Resolved _ =>
      let calls :=
        [AuthSignOut "global"; AuthSignInWithPassword email password] in
      match reply with
      | Rejected e =>
          mkRun st (calls ++ [ConsoleError "Login error:" e]) (Thrown e)
      | Resolved r =>
          match error r with
          | Some e =>
              mkRun st (calls ++ [ConsoleError "Login error:" e]) (Thrown e)
          | None =>
              match data r with
              | Some _ => mkRun st (calls ++ [LocationHref "/"])
                            (Returned true)
              | None => mkRun st calls (Returned false)
              end
          end
      end
  end.

Definition signup (email password username : string)
    (reply : Awaited AuthResponse) (st : Store) : Run bool :=
  let call := AuthSignUp email password username in
  match reply with
  | Rejected e => mkRun st [call; ConsoleError "Signup error:" e] (Thrown e)
  | Resolved r =>
      match error r with
      | Some e => mkRun st [call; ConsoleError "Signup error:" e] (Thrown e)
      | None =>
          match data r with
          | Some _ => mkRun st [call; LocationHref "/onboarding"]
                        (Returned true)
          | None => mkRun st [call] (Returned false)
          end
      end
  end.

(** [logout] awaits the sign-out and does not look at what it resolves
    with; only a rejection reaches the [catch]. *)
Definition logout (reply : Awaited SignOutResponse) (st : Store)
  : Run unit :=
  match reply with
  | Resolved _ =>
      mkRun (setSession None (setUser None st))
        [AuthSignOut "global"; LocationHref "/auth"] (Returned tt)
  | Rejected e =>
      mkRun st [AuthSignOut "global"; ConsoleError "Logout error:" e]
        (Thrown e)
  end.

(** *** Operations that close over [user] *)

Section Closures.

(** The [user] of the render that created the closures. *)
Variable user : option UserProfile.

(** The common tail of the four mutations: the update was sent with
    [payload]; on success the store adopts [next]. *)
Definition after_update (u : UserProfile) (payload : PartialUserProfile)
    (next : UserProfile) (msg : string) (reply : Awaited UpdateResponse)
    (st : Store) : Run unit :=
  let call := ProfilesUpdate (id u) payload in
  match reply with
  | Rejected e => mkRun st [call; ConsoleError msg e] (Thrown e)
  | Resolved r =>
      match error r with
      | Some e => mkRun st [call; ConsoleError msg e] (Thrown e)
      | None => mkRun (setUser (Some next) st) [call] (Returned tt)
      end
  end.

Definition updateProfile (updates : PartialUserProfile)
    (reply : Awaited UpdateResponse) (st : Store) : Run unit :=
  match user with
  | None => mkRun st [] (Returned tt)
  | Some u =>
      after_update u updates (spread u updates)
        "Error updating profile:" reply st
  end.

Definition completeOnboarding (avatar : string) (genres : list Z)
    (reply : Awaited UpdateResponse) (st : Store) : Run unit :=
  match user with
  | None => mkRun st [] (Returned tt)
  | Some u =>
      let payload :=
        mkPartial None None None (Some avatar) (Some genres) (Some true)
          None in
      after_update u payload (spread u payload)
        "Error completing onboarding:" reply st
  end.

Definition addToWatchlist (movieId : Z) (reply : Awaited UpdateResponse)
    (st : Store) : Run unit :=
  match user with
  | None => mkRun st [] (Returned tt)
  | Some u =>
      let updatedWatchlist := watchlist u ++ [movieId] in
      let payload :=
        mkPartial None None None None None None (Some updatedWatchlist) in
      after_update u payload (spread u payload)
        "Error adding to watchlist:" reply st
  end.

Definition removeFromWatchlist (movieId : Z)
    (reply : Awaited UpdateResponse) (st : Store) : Run unit :=
  match user with
  | None => mkRun st [] (Returned tt)
  | Some u =>
      let updatedWatchlist :=
        filter (fun id => negb (id =? movieId)%Z) (watchlist u) in
      let payload :=
        mkPartial None None None None None None (Some updatedWatchlist) in
      after_update u payload (spread u payload)
        "Error removing from watchlist:" reply st
  end.

(** [user?.watchlist.includes(movieId) || false] *)
Definition isInWatchlist (movieId : Z) : bool :=
  match user with
  | Some u => existsb (fun id => (id =? movieId)%Z) (watchlist u)
  | None => false
  end.

End Closures.

(** *** Calls made on the context value *)

Inductive Call : Type :=
| UpdateProfile (updates : PartialUserProfile)
| CompleteOnboarding (avatar : string) (genres : list Z)
| AddToWatchlist (movieId : Z)
| RemoveFromWatchlist (movieId : Z).

(** A call on the context value of the current render: the closure holds
    the [user] of the store it is run against. *)
Definition invoke (c : Call) (reply : Awaited UpdateResponse) (st : Store)
  : Run unit :=
  match c with
  | UpdateProfile updates => updateProfile (user st) updates reply st
  | CompleteOnboarding avatar genres =>
      completeOnboarding (user st) avatar genres reply st
  | AddToWatchlist movieId => addToWatchlist (user st) movieId reply st
  | RemoveFromWatchlist movieId =>
      removeFromWatchlist (user st) movieId reply st
  end.

(** Calls made one after the other, each on the context value of the
    render that follows the previous call. *)
Fixpoint invoke_all (cs : list (Call * Awaited UpdateResponse))
    (st : Store) : Store :=
  match cs with
  | [] => st
  | (c, reply) :: rest => invoke_all rest (final (invoke c reply st))
  end.

(** The two watchlist calls on their own. *)
Inductive WatchlistCall : Type :=
| Add (movieId : Z)
| Remove (movieId : Z).

Definition call_of (w : WatchlistCall) : Call :=
  match w with
  | Add movieId => AddToWatchlist movieId
  | Remove movieId => RemoveFromWatchlist movieId
  end.

(** The watchlist of the spec: append, or filter out every equal id. *)
Definition spec_apply (wl : list Z) (w : WatchlistCall) : list Z :=
  match w with
  | Add movieId => wl ++ [movieId]
  | Remove movieId => filter (fun x => negb (x =? movieId)%Z) wl
  end.

Definition spec_watchlist (calls : list WatchlistCall) (initial : list Z)
  : list Z :=
  fold_left spec_apply calls initial.

Definition with_watchlist (u : UserProfile) (wl : list Z) : UserProfile :=
  {| id := id u;
     username := username u;
     email := email u;
     avatar := avatar u;
     genre_preferences := genre_preferences u;
     onboarding_completed := onboarding_completed u;
     watchlist := wl |}.

(** A successful write: the promise resolves and carries no error. *)
Definition write_ok (reply : Awaited UpdateResponse) : Prop :=
  match reply with
  | Resolved r => error r = None
  | Rejected _ => False
  end.

(** *** The provider's event stream and the task queue *)

(** [setTimeout(async () => { await loadUserProfile(session.user);
    setLoading(false); }, delay)] *)
Record Timer : Type := mkTimer {
  delay : Z;
  principal : User
}.

Record Runtime : Type := mkRuntime {
  store : Store;
  getting_session : bool;  (* [getSession()] not settled yet *)
  timers : list Timer;     (* queued timer callbacks, oldest first *)
  selects : list User;     (* [loadUserProfile] runs waiting for the row *)
  trace : list Effect
}.

Definition mount : Runtime :=
  {| store := {| user := None; session := None; loading := true |};
     getting_session := true;
     timers := [];
     selects := [];
     trace := [AuthGetSession] |}.

(** [session?.user] *)
Definition user_of (s : option Session) : option User :=
  match s with
  | Some s' => session_user s'
  | None => None
  end.

(** The settlement of [getSession()] in the mount effect. *)
Definition getSession (reply : Awaited (option Session)) (rt : Runtime)
  : Runtime :=
  if getting_session rt then
    match reply with
    | Rejected e =>
        {| store := setLoading false (store rt);
           getting_session := false;
           timers := timers rt;
           selects := selects rt;
           trace := trace rt ++ [ConsoleError "Error getting session:" e] |}
    | Resolved s =>
        match user_of s with
        | Some u =>
            {| store := setSession s (store rt);
               getting_session := false;
               timers := timers rt;
               selects := selects rt ++ [u];
               trace := trace rt ++ [ProfilesSelect (user_id u)] |}
        | None =>
            {| store := setLoading false (setSession s (store rt));
               getting_session := false;
               timers := timers rt;
               selects := selects rt;
               trace := trace rt |}
        end
    end
  else rt.

(** The callback given to [supabase.auth.onAuthStateChange]. *)
Definition onAuthStateChange (event : string) (s : option Session)
    (rt : Runtime) : Runtime :=
  let st := setSession s (store rt) in
  let tr := trace rt ++ [ConsoleLog "Auth state changed:"] in
  match (if (event =? "SIGNED_IN")%string then user_of s else None) with
  | Some u =>
      {| store := st;
         getting_session := getting_session rt;
         timers := timers rt ++ [mkTimer 0 u];
         selects := selects rt;
         trace := tr |}
  | None =>
      if (event =? "SIGNED_OUT")%string then
        {| store := setLoading false (setUser None st);
           getting_session := getting_session rt;
           timers := timers rt;
           selects := selects rt;
           trace := tr |}
      else
        {| store := st;
           getting_session := getting_session rt;
           timers := timers rt;
           selects := selects rt;
           trace := tr |}
  end.

(** The oldest timer callback starts: [loadUserProfile] sends its select
    and waits. *)
Definition run_timer (rt : Runtime) : Runtime :=
  match timers rt with
  | [] => rt
  | t :: rest =>
      {| store := store rt;
         getting_session := getting_session rt;
         timers := rest;
         selects := selects rt ++ [principal t];
         trace := trace rt ++ [ProfilesSelect (user_id (principal t))] |}
  end.

(** The oldest select settles: [loadUserProfile] finishes and its caller
    goes on with [setLoading(false)]. *)
Definition settle_select (reply : Awaited SelectResponse) (rt : Runtime)
  : Runtime :=
  match selects rt with
  | [] => rt
  | u :: rest =>
      let (st, eff) := loadUserProfile u reply (store rt) in
      {| store := setLoading false st;
         getting_session := getting_session rt;
         timers := timers rt;
         selects := rest;
         trace := trace rt ++ eff |}
  end.

(** One turn of the event loop: a promise of the provider or of the
    backend settles, the provider emits an event, or a timer fires. *)
Inductive Tick : Type :=
| SessionReply (reply : Awaited (option Session))
| AuthStateChange (event : string) (s : option Session)
| TimerFires
| SelectReply (reply : Awaited SelectResponse).

Definition step (t : Tick) (rt : Runtime) : Runtime :=
  match t with
  | SessionReply reply => getSession reply rt
  | AuthStateChange event s => onAuthStateChange event s rt
  | TimerFires => run_timer rt
  | SelectReply reply => settle_select reply rt
  end.

Definition run (ticks : list Tick) (rt : Runtime) : Runtime :=
  fold_left (fun r t => step t r) ticks rt.

(** The states the provider component can be in some turns after it was
    mounted. *)
Inductive Reachable : Runtime -> Prop :=
| reach_mount : Reachable mount
| reach_step (t : Tick) (rt : Runtime) :
    Reachable rt -> Reachable (step t rt).

End AuthContext.

(** ** The detail view: [DetailPage.tsx] *)

Module DetailPage.
Import Js.

Record Genre : Type := mkGenre {
  genre_id : Z;
  genre_name : string
}.

Record CastMember : Type := mkCast {
  cast_id : Z;
  cast_name : string;
  character : string;
  profile_path : option string
}.

(** The [Movie] record of the metadata service, as far as the page reads
    it.  [vote_average] is a floating-point score shown with one decimal
    and is left out. *)
Record Movie : Type := mkMovie {
  id : Z;
  title : option string;
  name : option string;
  overview : string;
  backdrop_path : option string;
  release_date : option string;
  first_air_date : option string;
  runtime : option Z;
  number_of_seasons : option Z;
  genres : option (list Genre);
  credits_cast : option (list CastMember)
}.

Inductive Kind : Type := movie | tv.

(** [location.pathname.startsWith('/movie/') ? 'movie' : 'tv'] *)
Definition type_of (pathname : string) : Kind :=
  if String.prefix "/movie/" pathname then movie else tv.

Record ToastMessage : Type := mkToast {
  toast_title : string;
  description : string;
  destructive : bool
}.

Inductive Effect : Type :=
| ConsoleLog (msg : string)
| ConsoleError (msg : string) (e : Error)
| GetMovieDetails (id_param : string)  (* called with [parseInt(id)] *)
| GetTVDetails (id_param : string)
| Toast (t : ToastMessage)
| AddToWatchlist (movieId : Z)
| RemoveFromWatchlist (movieId : Z).

(** The state cells of the page. *)
Record View : Type := mkView {
  content : option Movie;
  loading : bool;
  isPlaying : bool
}.

Definition initial : View :=
  {| content := None; loading := true; isPlaying := false |}.

Definition setContent (c : option Movie) (v : View) : View :=
  {| content := c; loading := loading v; isPlaying := isPlaying v |}.

Definition setLoading (b : bool) (v : View) : View :=
  {| content := content v; loading := b; isPlaying := isPlaying v |}.

Definition setIsPlaying (b : bool) (v : View) : View :=
  {| content := content v; loading := loading v; isPlaying := b |}.

(** [!id] for the route parameter. *)
Definition has_id (id : option string) : bool :=
  match id with
  | Some i => truthy i
  | None => false
  end.

Definition load_failed : ToastMessage :=
  mkToast "Error" "Failed to load content details." true.

(** [fetchContent], run to its end with the settlement of the request. *)
Definition fetchContent (type : Kind) (id : option string)
    (reply : Awaited Movie) (v : View) : View * list Effect :=
  match id with
  | Some i =>
      if truthy i then
        let request :=
          match type with
          | movie => GetMovieDetails i
          | tv => GetTVDetails i
          end in
        let v1 := setLoading true v in
        match reply with
        | Resolved data =>
            (setLoading false (setContent (Some data) v1),
             [ConsoleLog "Fetching"; request; ConsoleLog "Fetched content:"])
        | Rejected e =>
            (setLoading false v1,
             [ConsoleLog "Fetching"; request;
              ConsoleError "Error fetching content:" e; Toast load_failed])
        end
      else (setLoading false v, [ConsoleLog "No id provided"])
  | None => (setLoading false v, [ConsoleLog "No id provided"])
  end.

(** The effect that runs on mount and whenever [type] or [id] changes. *)
Definition visit (type : Kind) (id : option string) (reply : Awaited Movie)
    (v : View) : View * list Effect :=
  if has_id id then
    let (v', eff) := fetchContent type id reply v in
    (v', ConsoleLog "Fetching content for:" :: eff)
  else (setLoading false v, [ConsoleLog "Missing id:"]).

Definition sign_in_to_watch : ToastMessage :=
  mkToast "Sign in required" "Please sign in to watch content." true.

Definition sign_in_for_watchlist : ToastMessage :=
  mkToast "Sign in required"
    "Please sign in to add items to your watchlist." true.

(** [content.title || content.name || 'Unknown Title'] *)
Definition display_title (c : Movie) : string :=
  or_str (title c) (or_str (name c) "Unknown Title").

Section Handlers.

(** [user] and [isInWatchlist] as handed out by [useAuth()]. *)
Variable user : option AuthContext.UserProfile.

Definition handleWatch (v : View) : View * list Effect :=
  match user with
  | None => (v, [Toast sign_in_to_watch])
  | Some _ => (setIsPlaying true v, [])
  end.

Definition handleWatchlistToggle (v : View) : list Effect :=
  match user, content v with
  | Some _, Some c =>
      let title := display_title c in
      if AuthContext.isInWatchlist user (id c) then
        [RemoveFromWatchlist (id c);
         Toast (mkToast "Removed from watchlist"
                  (title ++ " has been removed from your watchlist.")
                  false)]
      else
        [AddToWatchlist (id c);
         Toast (mkToast "Added to watchlist"
                  (title ++ " has been added to your watchlist.")
                  false)]
  | _, _ => [Toast sign_in_for_watchlist]
  end.

End Handlers.

(** A watchlist mutation among the effects of a handler. *)
Definition mutates_watchlist (e : Effect) : bool :=
  match e with
  | AddToWatchlist _ | RemoveFromWatchlist _ => true
  | _ => false
  end.

(** *** What the page renders *)

(** A JSX slot [{x && <element/>}]: a falsy [undefined], [null], [false]
    or empty string shows nothing, a falsy number is shown as text, a
    truthy [x] shows the element. *)
Inductive Slot (A : Type) : Type :=
| Nothing
| Text (n : Z)
| Element (a : A).
Arguments Nothing {A}.
Arguments Text {A} n.
Arguments Element {A} a.

Record Clock : Type := mkClock {
  hours : Z;
  minutes : Z
}.

Record Seasons : Type := mkSeasons {
  count : Z;
  plural : bool
}.

Record Player : Type := mkPlayer {
  player_title : string;
  tmdbId : Z;
  player_type : Kind
}.

Record Details : Type := mkDetails {
  heading : string;                       (* the [h1] *)
  backdropUrl : string;
  year : Slot (option Z);                 (* [None]: an invalid date *)
  clock : Slot Clock;
  seasons : Slot Seasons;
  summary : string;
  watchlist_button : Slot bool;           (* [true]: "In Watchlist" *)
  player : Slot Player;
  genre_chips : Slot (list string);
  cast_cards : Slot (list CastMember)
}.

Inductive Screen : Type :=
| LoadingScreen
| NotFound (type : Kind) (id : option string) (go_home : string)
| DetailScreen (d : Details).

(** [n && <element/>] for an optional number. *)
Definition number_slot {A : Type} (n : option Z) (element : Z -> A)
  : Slot A :=
  match n with
  | None => Nothing
  | Some k => if (k =? 0)%Z then Text k else Element (element k)
  end.

(** [flag && <element/>] *)
Definition bool_slot {A : Type} (flag : bool) (element : A) : Slot A :=
  if flag then Element element else Nothing.

(** [xs && xs.length > 0 && <element/>] *)
Definition list_slot {A B : Type} (xs : option (list A))
    (element : list A -> B) : Slot B :=
  match xs with
  | Some (x :: rest) => Element (element (x :: rest))
  | _ => Nothing
  end.

Definition placeholder_backdrop : string :=
  "https://images.unsplash.com/photo-1489599904276-39c2bb2d7b64"
  ++ "?w=1920&h=1080&fit=crop".

Section Render.

(** [new Date(s).getFullYear()] of the host; [None] stands for [NaN]. *)
Variable getFullYear : string -> option Z.

Variable user : option AuthContext.UserProfile.
Variable type : Kind.
Variable id_param : option string.

Definition details (c : Movie) (v : View) : Details :=
  let title := display_title c in
  let releaseDate :=
    or_str (release_date c) (or_str (first_air_date c) "") in
  {| heading := title;
     backdropUrl :=
       match backdrop_path c with
       | Some p =>
           if truthy p then "https://image.tmdb.org/t/p/original" ++ p
           else placeholder_backdrop
       | None => placeholder_backdrop
       end;
     year := bool_slot (truthy releaseDate) (getFullYear releaseDate);
     clock :=
       number_slot (runtime c)
         (fun r => mkClock (r / 60) (Z.rem r 60));
     seasons :=
       number_slot (number_of_seasons c)
         (fun n => mkSeasons n (1 <? n)%Z);
     summary := overview c;
     watchlist_button :=
       match user with
       | Some _ => Element (AuthContext.isInWatchlist user (id c))
       | None => Nothing
       end;
     player := bool_slot (isPlaying v) (mkPlayer title (id c) type);
     genre_chips := list_slot (genres c) (map genre_name);
     cast_cards := list_slot (credits_cast c) (firstn 12) |}.

Definition render (v : View) : Screen :=
  if loading v then LoadingScreen
  else
    match content v with
    | None => NotFound type id_param "/"
    | Some c => DetailScreen (details c v)
    end.

End Render.

End DetailPage.

(** ** The signup form *)

Module SignupForm.
Import Js.

Record Form : Type := mkForm {
  username : string;
  email : string;
  password : string;
  confirmPassword : string;
  showPassword : bool;
  isLoading : bool
}.

Definition setIsLoading (b : bool) (f : Form) : Form :=
  {| username := username f;
     email := email f;
     password := password f;
     confirmPassword := confirmPassword f;
     showPassword := showPassword f;
     isLoading := b |}.

Inductive Effect : Type :=
| PreventDefault
| Signup (email password username : string)
| ConsoleError (msg : string) (e : Error).

Section Submit.

(** [signup] of [useAuth()], with the way each call ends. *)
Variable signup : string -> string -> string -> Completion bool.

Definition handleSubmit (f : Form) : Form * list Effect :=
  if negb (password f =? confirmPassword f)%string then
    (f, [PreventDefault])
  else if (String.length (password f) <? 6)%nat then
    (f, [PreventDefault])
  else
    let call := Signup (email f) (password f) (username f) in
    match signup (email f) (password f) (username f) with
    | Returned _ =>
        (setIsLoading false (setIsLoading true f), [PreventDefault; call])
    | Thrown e =>
        (setIsLoading false (setIsLoading true f),
         [PreventDefault; call; ConsoleError "Signup failed:" e])
    end.

End Submit.

Definition is_signup (e : Effect) : bool :=
  match e with
  | Signup _ _ _ => true
  | _ => false
  end.

(** Does a submission call [signup]? *)
Definition invokes_signup (log : list Effect) : bool :=
  existsb is_signup log.

End SignupForm.

(** ** How the views use the store *)

Module Wiring.
Import Js.

(** The error a settled backend call hands to its caller: the rejection, or
    the [error] field of what it resolved with. *)
Definition failure_of {D : Type} (reply : Awaited (AuthContext.Response D))
  : option Error :=
  match reply with
  | Rejected e => Some e
  | Resolved r => AuthContext.error r
  end.

(** [updateProfile({})] *)
Definition empty_updates : AuthContext.PartialUserProfile :=
  AuthContext.mkPartial None None None None None None None.

(** The store call behind an effect of the detail page; [user] is that of
    the render the page took its closures from. *)
Definition dispatch (user : option AuthContext.UserProfile)
    (e : DetailPage.Effect) (reply : Awaited AuthContext.UpdateResponse)
    (st : AuthContext.Store) : AuthContext.Store :=
  match e with
  | DetailPage.AddToWatchlist movieId =>
      AuthContext.final (AuthContext.addToWatchlist user movieId reply st)
  | DetailPage.RemoveFromWatchlist movieId =>
      AuthContext.final
        (AuthContext.removeFromWatchlist user movieId reply st)
  | _ => st
  end.

(** A click on the watchlist button of the page rendered from [st]. *)
Definition click_toggle (v : DetailPage.View)
    (reply : Awaited AuthContext.UpdateResponse) (st : AuthContext.Store)
  : AuthContext.Store :=
  fold_left (fun s e => dispatch (AuthContext.user st) e reply s)
    (DetailPage.handleWatchlistToggle (AuthContext.user st) v) st.

(** The one call that grows the watchlist. *)
Definition is_add (c : AuthContext.Call) : bool :=
  match c with
  | AuthContext.AddToWatchlist _ => true
  | _ => false
  end.

(** The calls whose payload has no [watchlist] key. *)
Definition leaves_watchlist (c : AuthContext.Call) : bool :=
  match c with
  | AuthContext.UpdateProfile updates =>
      match AuthContext.upd_watchlist updates with
      | Some _ => false
      | None => true
      end
  | AuthContext.CompleteOnboarding _ _ => true
  | _ => false
  end.

(** How often an id occurs in a watchlist. *)
Definition occurrences (movieId : Z) (wl : list Z) : nat :=
  count_occ Z.eq_dec wl movieId.

(** Whether a profile select came back with a row and no error. *)
Definition row_of (reply : Awaited AuthContext.SelectResponse)
  : option AuthContext.ProfileRow :=
  match reply with
  | Rejected _ => None
  | Resolved r =>
      match AuthContext.error r with
      | Some _ => None
      | None => AuthContext.data r
      end
  end.

(** A call through the closures of one render: they hold the [user] that
    render captured, whatever the store has become when the call is made. *)
Definition invoke_captured (captured : option AuthContext.UserProfile)
    (c : AuthContext.Call) (reply : Awaited AuthContext.UpdateResponse)
    (st : AuthContext.Store) : AuthContext.Run unit :=
  match c with
  | AuthContext.UpdateProfile updates =>
      AuthContext.updateProfile captured updates reply st
  | AuthContext.CompleteOnboarding avatar genres =>
      AuthContext.completeOnboarding captured avatar genres reply st
  | AuthContext.AddToWatchlist movieId =>
      AuthContext.addToWatchlist captured movieId reply st
  | AuthContext.RemoveFromWatchlist movieId =>
      AuthContext.removeFromWatchlist captured movieId reply st
  end.

(** Calls made one after the other through the closures of one and the same
    render: two clicks before the first write has been rendered, or two
    awaited calls inside one handler. *)
Fixpoint same_render_calls (captured : option AuthContext.UserProfile)
    (cs : list (AuthContext.Call * Awaited AuthContext.UpdateResponse))
    (st : AuthContext.Store) : AuthContext.Store :=
  match cs with
  | [] => st
  | (c, reply) :: rest =>
      same_render_calls captured rest
        (AuthContext.final (invoke_captured captured c reply st))
  end.

Definition is_request (e : DetailPage.Effect) : bool :=
  match e with
  | DetailPage.GetMovieDetails _ | DetailPage.GetTVDetails _ => true
  | _ => false
  end.

Definition is_toast (e : DetailPage.Effect) : bool :=
  match e with
  | DetailPage.Toast _ => true
  | _ => false
  end.

(** The [signup] the form gets from [useAuth()], for a provider that
    settles the sign-up with [reply]. *)
Definition signup_of (reply : Awaited AuthContext.AuthResponse)
    (st : AuthContext.Store) : string -> string -> string -> Completion bool :=
  fun email password username =>
    AuthContext.completion
      (AuthContext.signup email password username reply st).

(** What the store does for the [signup] calls of a submission. *)
Definition store_effects (reply : Awaited AuthContext.AuthResponse)
    (st : AuthContext.Store) (log : list SignupForm.Effect)
  : list AuthContext.Effect :=
  flat_map
    (fun e =>
       match e with
       | SignupForm.Signup email password username =>
           AuthContext.effects
             (AuthContext.signup email password username reply st)
       | _ => []
       end)
    log.

Definition is_navigation (e : AuthContext.Effect) : bool :=
  match e with
  | AuthContext.LocationHref _ => true
  | _ => false
  end.

Definition is_backend_call (e : AuthContext.Effect) : bool :=
  match e with
  | AuthContext.ConsoleLog _ | AuthContext.ConsoleError _ _
  | AuthContext.LocationHref _ => false
  | _ => true
  end.

End Wiring.

(** ** Sample data *)

Module Samples.
Import Js.

Definition alice : AuthContext.User :=
  AuthContext.mkUser "u-1" (Some "alice@example.com").

Definition alice_session : AuthContext.Session :=
  AuthContext.mkSession "token-1" (Some alice).

Definition alice_row : AuthContext.ProfileRow :=
  AuthContext.mkRow "u-1" "alice" None None (Some true) (Some [550; 13]).

Definition alice_profile : AuthContext.UserProfile :=
  AuthContext.profile_of_row alice alice_row.

Definition signed_in : AuthContext.Store :=
  AuthContext.mkStore (Some alice_profile) (Some alice_session) false.

Definition signed_out : AuthContext.Store :=
  AuthContext.mkStore None None false.

(** A watchlist that holds 550 twice. *)
Definition signed_in_twice : AuthContext.Store :=
  AuthContext.mkStore
    (Some (AuthContext.with_watchlist alice_profile [550; 13; 550]))
    (Some alice_session) false.

(** A write that went through and echoes no row. *)
Definition ok : Awaited AuthContext.UpdateResponse :=
  Resolved (AuthContext.mkResponse [] None).

(** A write that went through and echoes a row unlike what was sent. *)
Definition ok_other_row : Awaited AuthContext.UpdateResponse :=
  Resolved
    (AuthContext.mkResponse
       [AuthContext.mkRow "u-1" "alice" None None None (Some [1; 2; 3])]
       None).

(** The provider signs the user in and out again before the profile row of
    the sign-in has arrived. *)
Definition late_profile : list AuthContext.Tick :=
  [ AuthContext.SessionReply (Resolved None);
    AuthContext.AuthStateChange "SIGNED_IN" (Some alice_session);
    AuthContext.TimerFires;
    AuthContext.AuthStateChange "SIGNED_OUT" None;
    AuthContext.SelectReply
      (Resolved (AuthContext.mkResponse (Some alice_row) None)) ].

Definition identity_without_session : AuthContext.Runtime :=
  AuthContext.run late_profile AuthContext.mount.

Definition fight_club : DetailPage.Movie :=
  DetailPage.mkMovie 550 (Some "Fight Club") None
    "An insomniac office worker crosses paths with a soap maker."
    (Some "/fight.jpg") (Some "1999-10-15") None (Some 139) None
    (Some [DetailPage.mkGenre 18 "Drama"]) None.

(** The same record with the runtime the metadata service gives when it
    does not know it. *)
Definition runtime_unknown : DetailPage.Movie :=
  DetailPage.mkMovie 550 (Some "Fight Club") None
    "An insomniac office worker crosses paths with a soap maker."
    (Some "/fight.jpg") (Some "1999-10-15") None (Some 0) None
    (Some [DetailPage.mkGenre 18 "Drama"]) None.

(** A record whose [title] and [release_date] are empty and whose [name]
    and [first_air_date] are not. *)
Definition untitled : DetailPage.Movie :=
  DetailPage.mkMovie 551 (Some "") (Some "Pilot") "" None
    (Some "") (Some "2001-02-03") (Some 95) None None None.

Definition digit_of (c : Ascii.ascii) : option Z :=
  let n := Z.of_nat (Ascii.nat_of_ascii c) in
  if ((48 <=? n) && (n <=? 57))%Z then Some (n - 48)%Z else None.

(** A host whose clock is on UTC reads the year off the first four digits
    of an ISO date. *)
Definition utc_year (s : string) : option Z :=
  match s with
  | String a (String b (String c (String d _))) =>
      match digit_of a, digit_of b, digit_of c, digit_of d with
      | Some x, Some y, Some z, Some w =>
          Some (1000 * x + 100 * y + 10 * z + w)%Z
      | _, _, _, _ => None
      end
  | _ => None
  end.

Definition sample_form (pw confirm : string) : SignupForm.Form :=
  SignupForm.mkForm "alice" "alice@example.com" pw confirm false false.

End Samples.

(** ** Properties of the session store *)

Module StoreProps.
Import Js AuthContext.

(** *** Helper facts *)

Lemma with_watchlist_same (u : UserProfile) :
  with_watchlist u (watchlist u) = u.
Proof. destruct u; reflexivity. Qed.

Lemma with_watchlist_twice (u : UserProfile) (a b : list Z) :
  with_watchlist (with_watchlist u a) b = with_watchlist u b.
Proof. reflexivity. Qed.

Lemma spread_watchlist (u : UserProfile) (wl : list Z) :
  spread u (mkPartial None None None None None None (Some wl))
  = with_watchlist u wl.
Proof. reflexivity. Qed.

(** One successful watchlist call moves the store by one step of the
    spec's fold, whatever the write resolved with. *)
Lemma invoke_watchlist_ok (w : WatchlistCall)
    (reply : Awaited UpdateResponse) (st : Store) (u : UserProfile) :
  user st = Some u ->
  write_ok reply ->
  final (invoke (call_of w) reply st)
  = setUser (Some (with_watchlist u (spec_apply (watchlist u) w))) st.
Proof.
  intros Hu Hok.
  destruct reply as [r | e]; [ | contradiction ].
  simpl in Hok.
  destruct w as [m | m]; simpl;
    unfold addToWatchlist, removeFromWatchlist, after_update;
    rewrite Hu, Hok; simpl; rewrite spread_watchlist; reflexivity.
Qed.

Lemma includes_after_filter (movieId : Z) (wl : list Z) :
  existsb (fun x => (x =? movieId)%Z)
    (filter (fun x => negb (x =? movieId)%Z) wl) = false.
Proof.
  induction wl as [ | x wl IH ]; simpl; [ reflexivity | ].
  destruct (x =? movieId)%Z eqn:E; simpl; [ exact IH | ].
  rewrite E; exact IH.
Qed.

Lemma includes_In (movieId : Z) (wl : list Z) :
  existsb (fun x => (x =? movieId)%Z) wl = true <-> In movieId wl.
Proof.
  rewrite existsb_exists; split.
  - intros [x [Hin Heq]]. apply Z.eqb_eq in Heq. subst x. exact Hin.
  - intros Hin. exists movieId. split; [ exact Hin | apply Z.eqb_refl ].
Qed.

Lemma run_app (a b : list Tick) (rt : Runtime) :
  run (a ++ b) rt = run b (run a rt).
Proof. unfold run. apply fold_left_app. Qed.

Lemma run_reachable (ticks : list Tick) :
  forall rt, Reachable rt -> Reachable (run ticks rt).
Proof.
  induction ticks as [ | t ticks IH ]; intros rt H; simpl.
  - exact H.
  - apply IH. constructor. exact H.
Qed.

Lemma identity_without_session_reachable :
  Reachable Samples.identity_without_session.
Proof. apply run_reachable. constructor. Qed.

Lemma setUser_setUser (a b : option UserProfile) (st : Store) :
  setUser a (setUser b st) = setUser a st.
Proof. reflexivity. Qed.

Lemma setUser_same (st : Store) (u : UserProfile) :
  user st = Some u -> setUser (Some u) st = st.
Proof. destruct st as [usr ses ld]; simpl; intros ->; reflexivity. Qed.

(** *** The watchlist *)

(** C1, as the code has it.  Watchlist calls made one after the other by
    a signed-in user (Identity and Session both present), each on the
    context value of the render that follows the previous call and each with
    a successful write, leave the store with the watchlist obtained by
    folding append / filter-out over the calls in order.  The replies of the
    backend occur nowhere on the right-hand side: nothing the writes resolve
    with reaches the adopted sequence.  The rest of the store is
    untouched. *)
Theorem watchlist_calls_fold_in_order
    (calls : list WatchlistCall) (replies : list (Awaited UpdateResponse))
    (st : Store) (u : UserProfile) (s : Session) :
  user st = Some u ->
  session st = Some s ->
  List.length replies = List.length calls ->
  Forall write_ok replies ->
  invoke_all (combine (map call_of calls) replies) st
  = setUser (Some (with_watchlist u (spec_watchlist calls (watchlist u))))
      st.
Proof.
  intros Hu _. revert replies st u Hu.
  induction calls as [ | w calls IH ]; intros replies st u Hu Hlen Hok.
  - destruct replies; [ | discriminate Hlen ]. simpl.
    unfold spec_watchlist; simpl.
    rewrite with_watchlist_same. symmetry. apply setUser_same. exact Hu.
  - destruct replies as [ | r replies ]; [ discriminate Hlen | ].
    inversion Hok as [ | r' rs' Hr Hrest ]; subst.
    simpl.
    rewrite (invoke_watchlist_ok w r st u Hu Hr).
    rewrite (IH replies _ (with_watchlist u (spec_apply (watchlist u) w)));
      [ | reflexivity | simpl in Hlen; congruence | exact Hrest ].
    rewrite setUser_setUser, with_watchlist_twice. reflexivity.
Qed.

Lemma watchlist_calls_fold_in_order_witness :
  invoke_all
    (combine
       (map call_of [Add 27205; Remove 550; Add 27205])
       [Samples.ok; Samples.ok_other_row; Samples.ok])
    Samples.signed_in
  = setUser
      (Some (with_watchlist Samples.alice_profile
               (spec_watchlist [Add 27205; Remove 550; Add 27205]
                  (watchlist Samples.alice_profile))))
      Samples.signed_in.
Proof.
  apply (watchlist_calls_fold_in_order
           [Add 27205; Remove 550; Add 27205]
           [Samples.ok; Samples.ok_other_row; Samples.ok]
           Samples.signed_in Samples.alice_profile Samples.alice_session).
  - reflexivity.
  - reflexivity.
  - reflexivity.
  - repeat (apply Forall_cons; [ reflexivity | ]). apply Forall_nil.
Defined.

(** C1, as stated, fails.  Two additions made through the closures of one
    render, both with a successful write, both start from the watchlist that
    render captured: the second [setUser] overwrites the first, and the
    store ends with [550; 13; 2] where the fold over the two calls gives
    [550; 13; 1; 2]. *)
Lemma same_render_calls_do_not_fold :
  let st := Samples.signed_in in
  let calls := [Add 1; Add 2] in
  let st' :=
    Wiring.same_render_calls (user st)
      (combine (map call_of calls) [Samples.ok; Samples.ok]) st in
  user st = Some Samples.alice_profile
  /\ session st = Some Samples.alice_session
  /\ option_map watchlist (user st') = Some [550; 13; 2]
  /\ spec_watchlist calls (watchlist Samples.alice_profile)
     = [550; 13; 1; 2]
  /\ option_map watchlist (user st')
     <> Some (spec_watchlist calls (watchlist Samples.alice_profile)).
Proof.
  cbv zeta. repeat split; try reflexivity.
  intros H. vm_compute in H. discriminate H.
Qed.

(** Two calls made from one render (the second before the first has been
    rendered) both start from the same captured [user]: the later
    [setUser] overwrites the earlier one.  The fold above is about calls
    that each see the previous one. *)
Remark same_render_calls_overwrite
    (a b : Z) (ra rb : Awaited UpdateResponse) (st : Store)
    (u : UserProfile) :
  user st = Some u ->
  write_ok ra ->
  write_ok rb ->
  final (addToWatchlist (user st) b rb
           (final (addToWatchlist (user st) a ra st)))
  = setUser (Some (with_watchlist u (watchlist u ++ [b]))) st.
Proof.
  intros Hu Ha Hb.
  destruct ra as [xa | ]; [ | contradiction ].
  destruct rb as [xb | ]; [ | contradiction ].
  simpl in Ha, Hb.
  unfold addToWatchlist, after_update. rewrite Hu, Ha, Hb. reflexivity.
Qed.

(** C10.  After a [removeFromWatchlist(id)] with a successful write by a
    signed-in user, [isInWatchlist(id)] of the next render is [false],
    however often [id] occurred before. *)
Theorem removed_id_not_in_watchlist
    (st : Store) (u : UserProfile) (s : Session) (movieId : Z)
    (reply : Awaited UpdateResponse) :
  user st = Some u ->
  session st = Some s ->
  write_ok reply ->
  isInWatchlist
    (user (final (removeFromWatchlist (user st) movieId reply st)))
    movieId
  = false.
Proof.
  intros Hu _ Hok.
  change (removeFromWatchlist (user st) movieId reply st)
    with (invoke (call_of (Remove movieId)) reply st).
  rewrite (invoke_watchlist_ok (Remove movieId) reply st u Hu Hok).
  simpl. apply includes_after_filter.
Qed.

Lemma removed_id_not_in_watchlist_witness :
  isInWatchlist (user Samples.signed_in_twice) 550 = true
  /\ isInWatchlist
       (user (final (removeFromWatchlist (user Samples.signed_in_twice) 550
                       Samples.ok Samples.signed_in_twice)))
       550
     = false.
Proof.
  split.
  - reflexivity.
  - apply (removed_id_not_in_watchlist Samples.signed_in_twice
             (with_watchlist Samples.alice_profile [550; 13; 550])
             Samples.alice_session 550 Samples.ok);
      reflexivity.
Defined.

(** *** The gate of the mutations *)

(** C2, as the code has it.  The four mutations look at the Identity
    ([user]), not at the Session: with a null Identity a call returns at
    once, whatever the Session is; the store is unchanged and nothing is
    sent to the backend. *)
Theorem mutations_without_identity_are_noops
    (c : Call) (reply : Awaited UpdateResponse) (st : Store) :
  user st = None ->
  invoke c reply st = mkRun st [] (Returned tt).
Proof.
  intros Hu.
  destruct c; simpl;
    unfold updateProfile, completeOnboarding, addToWatchlist,
      removeFromWatchlist;
    rewrite Hu; reflexivity.
Qed.

Lemma mutations_without_identity_are_noops_witness :
  invoke (AddToWatchlist 550) Samples.ok Samples.signed_out
  = mkRun Samples.signed_out [] (Returned tt).
Proof.
  apply (mutations_without_identity_are_noops (AddToWatchlist 550)
           Samples.ok Samples.signed_out).
  reflexivity.
Defined.

(** C2, as stated, fails.  The provider signs the user in and out again
    while the profile row of the sign-in is still on its way; when the row
    arrives the Identity is set although the Session is null.  In that
    state [addToWatchlist] changes the store and writes to the backend. *)
Lemma mutation_with_null_session_goes_through :
  let rt := Samples.identity_without_session in
  let out := invoke (AddToWatchlist 27205) Samples.ok (store rt) in
  Reachable rt
  /\ session (store rt) = None
  /\ final out <> store rt
  /\ effects out
     = [ProfilesUpdate "u-1"
          (mkPartial None None None None None None
             (Some [550; 13; 27205]))].
Proof.
  cbv zeta. split; [ exact identity_without_session_reachable | ].
  split; [ reflexivity | ].
  split; [ | reflexivity ].
  intros H. apply (f_equal user) in H. vm_compute in H. discriminate H.
Qed.

(** C4, as the code has it.  [isInWatchlist] is a function of the captured
    Identity and of the id alone: with a null Identity it is [false]; with
    an Identity it is [true] exactly when the id occurs in the
    watchlist. *)
Theorem isInWatchlist_is_membership (st : Store) (movieId : Z) :
  match user st with
  | None => isInWatchlist (user st) movieId = false
  | Some u =>
      isInWatchlist (user st) movieId = true <-> In movieId (watchlist u)
  end.
Proof.
  destruct (user st) as [u | ] eqn:Hu; simpl.
  - apply includes_In.
  - reflexivity.
Qed.

Lemma isInWatchlist_is_membership_witness :
  isInWatchlist (user Samples.signed_in) 13 = true
  <-> In 13 (watchlist Samples.alice_profile).
Proof.
  exact (isInWatchlist_is_membership Samples.signed_in 13).
Defined.

(** C4, as stated, fails: in the reachable state above the Session is
    null and [isInWatchlist(550)] is [true]. *)
Lemma isInWatchlist_true_with_null_session :
  let rt := Samples.identity_without_session in
  Reachable rt
  /\ session (store rt) = None
  /\ isInWatchlist (user (store rt)) 550 = true.
Proof.
  cbv zeta. split; [ exact identity_without_session_reachable | ].
  split; reflexivity.
Qed.

(** *** [logout] *)

(** C3, as the code has it.  When the provider's sign-out resolves,
    whatever it resolves with (an [error] field included), Identity and
    Session are null afterwards and the page has been sent to [/auth].  When
    it rejects, the error is thrown again, the store is exactly as it was
    and nothing was navigated. *)
Theorem logout_clears_or_rethrows (st : Store) :
  (forall r : SignOutResponse,
      let out := logout (Resolved r) st in
      user (final out) = None
      /\ session (final out) = None
      /\ loading (final out) = loading st
      /\ In (LocationHref "/auth") (effects out)
      /\ completion out = Returned tt)
  /\ (forall e : Error,
         let out := logout (Rejected e) st in
         completion out = Thrown e
         /\ final out = st
         /\ forall href, ~ In (LocationHref href) (effects out)).
Proof.
  split.
  - intros r. simpl. repeat split; auto.
  - intros e. simpl. repeat split.
    intros href [H | [H | H]]; try discriminate H; exact H.
Qed.

(** C3, as stated, fails.  A sign-out that fails the way the provider's
    calls report failure, by resolving with an [error], is not looked at:
    [logout] returns normally, the store is cleared and the page is sent to
    [/auth]; nothing is thrown and the local state is not left as it
    was. *)
Lemma logout_ignores_error_reply :
  let reply : Awaited SignOutResponse :=
    Resolved (mkResponse tt (Some "Failed to fetch")) in
  let out := logout reply Samples.signed_in in
  Wiring.failure_of reply = Some "Failed to fetch"
  /\ completion out = Returned tt
  /\ completion out <> Thrown "Failed to fetch"
  /\ user (final out) = None
  /\ session (final out) = None
  /\ final out <> Samples.signed_in
  /\ In (LocationHref "/auth") (effects out).
Proof.
  cbv zeta. repeat split; try reflexivity; try discriminate.
  simpl. right. left. reflexivity.
Qed.

Lemma logout_clears_or_rethrows_witness :
  final (logout (Rejected "Failed to fetch") Samples.signed_in)
  = Samples.signed_in
  /\ user (final (logout (Resolved (mkResponse tt None))
                   Samples.signed_in))
     = None.
Proof.
  destruct (logout_clears_or_rethrows Samples.signed_in) as [Hok Hfail].
  split.
  - exact (proj1 (proj2 (Hfail "Failed to fetch"))).
  - exact (proj1 (Hok (mkResponse tt None))).
Defined.

(** *** The sign-in event *)

(** C8.  The handler of a [SIGNED_IN] event that carries a user principal
    touches neither the Identity nor the loading flag, sends no profile
    select and leaves none waiting: all it does besides [setSession] and
    its log line is to queue one timer callback with delay 0 behind the
    timers already queued.  The select and the population of the Identity
    happen when that callback is run by the event loop. *)
Theorem sign_in_profile_load_is_deferred
    (rt : Runtime) (s : Session) (u : User) :
  session_user s = Some u ->
  let rt' := onAuthStateChange "SIGNED_IN" (Some s) rt in
  user (store rt') = user (store rt)
  /\ loading (store rt') = loading (store rt)
  /\ session (store rt') = Some s
  /\ selects rt' = selects rt
  /\ trace rt' = trace rt ++ [ConsoleLog "Auth state changed:"]
  /\ timers rt' = timers rt ++ [mkTimer 0 u]
  /\ (timers rt = [] ->
      selects rt = [] ->
      forall row : ProfileRow,
        let started := run_timer rt' in
        let done :=
          settle_select (Resolved (mkResponse (Some row) None)) started in
        trace started = trace rt' ++ [ProfilesSelect (user_id u)]
        /\ user (store done) = Some (profile_of_row u row)
        /\ loading (store done) = false).
Proof.
  intros Hs. unfold onAuthStateChange. simpl. rewrite Hs. simpl.
  repeat (split; [ reflexivity | ]).
  intros Ht Hsel row. unfold run_timer, settle_select. simpl.
  rewrite Ht, Hsel. simpl. repeat split.
Qed.

Lemma sign_in_profile_load_is_deferred_witness :
  let rt' :=
    onAuthStateChange "SIGNED_IN" (Some Samples.alice_session) mount in
  user (store rt') = None
  /\ selects rt' = []
  /\ timers rt' = [mkTimer 0 Samples.alice].
Proof.
  pose proof (sign_in_profile_load_is_deferred mount Samples.alice_session
                Samples.alice eq_refl) as H.
  cbv zeta in H.
  destruct H as [Hu [_ [_ [Hsel [_ [Ht _]]]]]].
  repeat split; assumption.
Defined.

End StoreProps.

(** ** Properties of the detail view *)

Module DetailProps.
Import Js DetailPage.

Lemma visit_resolved (type : Kind) (id : string) (m : Movie) (v : View) :
  truthy id = true ->
  fst (visit type (Some id) (Resolved m) v)
  = setLoading false (setContent (Some m) (setLoading true v)).
Proof.
  intros Hid. unfold visit, fetchContent, has_id. rewrite Hid. reflexivity.
Qed.

Lemma visit_rejected (type : Kind) (id : string) (e : Error) (v : View) :
  truthy id = true ->
  fst (visit type (Some id) (Rejected e) v)
  = setLoading false (setLoading true v).
Proof.
  intros Hid. unfold visit, fetchContent, has_id. rewrite Hid. reflexivity.
Qed.

(** C6, as the code has it.  After a successful fetch on a movie route the
    page shows the detail screen, and each of the three fields follows its
    own condition: the heading is the fetched [title] whenever that is a
    non-empty string; the year is the host's
    [new Date(release_date).getFullYear()] whenever [release_date] is a
    non-empty string; and for every positive runtime [r] the clock shows
    [Math.floor(r / 60)] hours and [r % 60] minutes, which add up to [r]
    with the minutes below 60. *)
Theorem movie_detail_shows_fetched_fields
    (getFullYear : string -> option Z)
    (user : option AuthContext.UserProfile)
    (id : string) (m : Movie) (v : View) :
  truthy id = true ->
  let v' := fst (visit movie (Some id) (Resolved m) v) in
  let shown := details getFullYear user movie m v' in
  render getFullYear user movie (Some id) v' = DetailScreen shown
  /\ (forall t, title m = Some t -> truthy t = true -> heading shown = t)
  /\ (forall d,
         release_date m = Some d -> truthy d = true ->
         year shown = Element (getFullYear d))
  /\ (forall r,
         runtime m = Some r -> 0 < r ->
         clock shown = Element (mkClock (r / 60) (Z.rem r 60))
         /\ 60 * (r / 60) + Z.rem r 60 = r
         /\ 0 <= Z.rem r 60 < 60).
Proof.
  intros Hid v' shown. subst shown v'.
  rewrite (visit_resolved movie id m v Hid).
  split; [ reflexivity | ]. split; [ | split ].
  - intros t Ht Htt. simpl. unfold display_title, or_str.
    rewrite Ht, Htt. reflexivity.
  - intros d Hd Hdt. simpl. unfold or_str at 1 2. rewrite Hd, Hdt. simpl.
    rewrite Hdt. reflexivity.
  - intros r Hr Hpos. split.
    + simpl. unfold number_slot. rewrite Hr.
      destruct (r =? 0)%Z eqn:E; [ apply Z.eqb_eq in E; lia | reflexivity ].
    + rewrite Z.rem_mod_nonneg by lia.
      pose proof (Z.div_mod r 60 ltac:(lia)) as Hdm.
      pose proof (Z.mod_pos_bound r 60 ltac:(lia)) as Hb.
      lia.
Qed.

Lemma movie_detail_shows_fetched_fields_witness :
  let v' :=
    fst (visit movie (Some "550") (Resolved Samples.fight_club) initial) in
  let shown := details Samples.utc_year None movie Samples.fight_club v' in
  render Samples.utc_year None movie (Some "550") v' = DetailScreen shown
  /\ heading shown = "Fight Club"
  /\ year shown = Element (Samples.utc_year "1999-10-15")
  /\ clock shown = Element (mkClock (139 / 60) (Z.rem 139 60))
  /\ 60 * (139 / 60) + Z.rem 139 60 = 139
  /\ 0 <= Z.rem 139 60 < 60.
Proof.
  pose proof (movie_detail_shows_fetched_fields Samples.utc_year None "550"
                Samples.fight_club initial eq_refl) as H.
  cbv zeta in H. destruct H as [Hscreen [Htitle [Hyear Hclock]]].
  cbv zeta. split; [ exact Hscreen | ].
  split; [ exact (Htitle "Fight Club" eq_refl eq_refl) | ].
  split; [ exact (Hyear "1999-10-15" eq_refl eq_refl) | ].
  exact (Hclock 139 eq_refl eq_refl).
Defined.

(** C6, as stated, fails.  For the runtime 0 the clock element is not
    rendered at all and the bare number 0 is shown in its place; and a
    record whose [title] and [release_date] are empty strings is headed by
    its [name] and dated by its [first_air_date]. *)
Lemma zero_runtime_and_empty_title_not_shown_as_claimed :
  let v0 :=
    fst (visit movie (Some "550") (Resolved Samples.runtime_unknown)
           initial) in
  let v1 :=
    fst (visit movie (Some "551") (Resolved Samples.untitled) initial) in
  render Samples.utc_year None movie (Some "550") v0
  = DetailScreen
      (details Samples.utc_year None movie Samples.runtime_unknown v0)
  /\ runtime Samples.runtime_unknown = Some 0
  /\ clock (details Samples.utc_year None movie Samples.runtime_unknown v0)
     = Text 0
  /\ clock (details Samples.utc_year None movie Samples.runtime_unknown v0)
     <> Element (mkClock (0 / 60) (Z.rem 0 60))
  /\ render Samples.utc_year None movie (Some "551") v1
     = DetailScreen
         (details Samples.utc_year None movie Samples.untitled v1)
  /\ title Samples.untitled = Some ""
  /\ heading (details Samples.utc_year None movie Samples.untitled v1)
     = "Pilot"
  /\ release_date Samples.untitled = Some ""
  /\ year (details Samples.utc_year None movie Samples.untitled v1)
     = Element (Some 2001).
Proof.
  cbv zeta. repeat split; try reflexivity.
  intros H. discriminate H.
Qed.

(** C7, as the code has it.  When the fetch rejects, the failure toast is
    shown, the loading flag ends [false] and the content is what it was
    before the fetch.  On a page that held no content (as right after
    mounting) the content is null and the "not found" screen is rendered,
    whose button leads to the home route. *)
Theorem rejected_fetch_keeps_content
    (getFullYear : string -> option Z)
    (user : option AuthContext.UserProfile)
    (type : Kind) (id : string) (e : Error) (v : View) :
  truthy id = true ->
  let out := visit type (Some id) (Rejected e) v in
  loading (fst out) = false
  /\ content (fst out) = content v
  /\ In (Toast load_failed) (snd out)
  /\ (content v = None ->
      content (fst out) = None
      /\ render getFullYear user type (Some id) (fst out)
         = NotFound type (Some id) "/").
Proof.
  intros Hid out.
  assert (Hv : fst out = setLoading false (setLoading true v))
    by (apply visit_rejected; exact Hid).
  rewrite Hv. simpl.
  split; [ reflexivity | ]. split; [ reflexivity | ]. split.
  - unfold out, visit, fetchContent, has_id. rewrite Hid. simpl.
    destruct type; simpl; tauto.
  - intros Hc. split; [ exact Hc | ].
    unfold render. simpl. rewrite Hc. reflexivity.
Qed.

Lemma rejected_fetch_keeps_content_witness :
  let out := visit movie (Some "550") (Rejected "Network Error") initial in
  loading (fst out) = false
  /\ content (fst out) = None
  /\ render Samples.utc_year None movie (Some "550") (fst out)
     = NotFound movie (Some "550") "/".
Proof.
  pose proof (rejected_fetch_keeps_content Samples.utc_year None movie
                "550" "Network Error" initial eq_refl) as H.
  cbv zeta in H. destruct H as [Hl [_ [_ Hnull]]].
  destruct (Hnull eq_refl) as [Hc Hr].
  repeat split; assumption.
Defined.

(** C7, as stated, fails.  The page is kept when the route parameter
    changes and the effect runs again on its state: after a title has been
    loaded, a rejected fetch for the next id leaves that title in place,
    and the page shows it instead of the "not found" screen. *)
Lemma rejected_fetch_after_a_loaded_title :
  let v1 :=
    fst (visit movie (Some "550") (Resolved Samples.fight_club) initial) in
  let v2 := fst (visit movie (Some "551") (Rejected "Network Error") v1) in
  loading v2 = false
  /\ content v2 = Some Samples.fight_club
  /\ content v2 <> None
  /\ render Samples.utc_year None movie (Some "551") v2
     = DetailScreen
         (details Samples.utc_year None movie Samples.fight_club v2)
  /\ render Samples.utc_year None movie (Some "551") v2
     <> NotFound movie (Some "551") "/".
Proof.
  cbv zeta. repeat split; try reflexivity; intros H; discriminate H.
Qed.

(** C9.  With null content the toggle shows the "Sign in required" toast
    and nothing else, signed in or not; and whenever the toggle asks for a
    watchlist mutation, both the Identity and the content are there. *)
Theorem toggle_needs_identity_and_content
    (user : option AuthContext.UserProfile) (v : View) :
  (content v = None ->
   handleWatchlistToggle user v = [Toast sign_in_for_watchlist]
   /\ existsb mutates_watchlist (handleWatchlistToggle user v) = false)
  /\ (existsb mutates_watchlist (handleWatchlistToggle user v) = true ->
      user <> None /\ content v <> None).
Proof.
  unfold handleWatchlistToggle. split.
  - intros Hc. rewrite Hc. destruct user; split; reflexivity.
  - destruct user as [u | ]; destruct (content v) as [c | ]; simpl;
      intros H; try discriminate H.
    split; intros K; discriminate K.
Qed.

Lemma toggle_needs_identity_and_content_witness :
  handleWatchlistToggle (Some Samples.alice_profile)
    (mkView None false false)
  = [Toast sign_in_for_watchlist]
  /\ handleWatchlistToggle (Some Samples.alice_profile)
       (mkView (Some Samples.fight_club) false false)
     = [RemoveFromWatchlist 550;
        Toast (mkToast "Removed from watchlist"
                 "Fight Club has been removed from your watchlist."
                 false)].
Proof.
  split.
  - apply (proj1 (toggle_needs_identity_and_content
                    (Some Samples.alice_profile)
                    (mkView None false false))).
    reflexivity.
  - reflexivity.
Defined.

End DetailProps.

(** ** Properties of the signup form *)

Module SignupProps.
Import Js SignupForm.

(** C5.  A submission calls [signup] only when the password equals its
    confirmation and is at least 6 long.  In particular the five-character
    password "abc12" with a matching confirmation, and "abcdef" confirmed
    as "xyzxyz", do not reach [signup], whatever the rest of the form. *)
Theorem signup_only_for_valid_passwords
    (signup : string -> string -> string -> Completion bool) :
  (forall f : Form,
      invokes_signup (snd (handleSubmit signup f)) = true ->
      password f = confirmPassword f
      /\ (6 <= String.length (password f))%nat)
  /\ (forall (u e : string) (sp il : bool),
         invokes_signup
           (snd (handleSubmit signup (mkForm u e "abc12" "abc12" sp il)))
         = false)
  /\ (forall (u e : string) (sp il : bool),
         invokes_signup
           (snd (handleSubmit signup (mkForm u e "abcdef" "xyzxyz" sp il)))
         = false).
Proof.
  split; [ | split; intros; reflexivity ].
  intros f. unfold handleSubmit.
  destruct (password f =? confirmPassword f)%string eqn:Eq; simpl;
    [ | discriminate ].
  destruct (String.length (password f) <? 6)%nat eqn:Len; simpl;
    [ discriminate | ].
  intros _. split.
  - apply String.eqb_eq. exact Eq.
  - apply Nat.ltb_ge. exact Len.
Qed.

Lemma signup_only_for_valid_passwords_witness :
  ("abcdef" = "abcdef" /\ (6 <= String.length "abcdef")%nat)
  /\ invokes_signup
       (snd (handleSubmit (fun _ _ _ => Returned true)
               (Samples.sample_form "abc12" "abc12")))
     = false
  /\ invokes_signup
       (snd (handleSubmit (fun _ _ _ => Returned true)
               (Samples.sample_form "abcdef" "xyzxyz")))
     = false.
Proof.
  destruct (signup_only_for_valid_passwords (fun _ _ _ => Returned true))
    as [Honly [Hshort Hdiff]].
  split; [ | split ].
  - apply (Honly (Samples.sample_form "abcdef" "abcdef")). reflexivity.
  - apply Hshort.
  - apply Hdiff.
Defined.

End SignupProps.

(** ** Further properties of the session store *)

Module StoreMore.
Import Js AuthContext Wiring.

Lemma write_ok_failure_of (reply : Awaited UpdateResponse) :
  write_ok reply <-> failure_of reply = None.
Proof.
  destruct reply as [r | e]; simpl; [ tauto | ].
  split; [ contradiction | discriminate ].
Qed.

Lemma invoke_settled (c : Call) (reply : Awaited UpdateResponse)
    (st : Store) (u : UserProfile) :
  user st = Some u ->
  exists payload msg,
    invoke c reply st = after_update u payload (spread u payload) msg reply st.
Proof.
  intros Hu.
  destruct c; simpl;
    unfold updateProfile, completeOnboarding, addToWatchlist,
      removeFromWatchlist;
    rewrite Hu; eexists; eexists; reflexivity.
Qed.

(** Case analysis on how an operation ended: break up what is known, then
    close the case by the constructors involved. *)
Ltac outcome H :=
  simpl in H;
  repeat match type of H with
         | _ /\ _ => let H' := fresh H in destruct H as [H' H]
         | exists _, _ => let r := fresh "r" in destruct H as [r H]
         end;
  repeat match goal with
         | K : _ \/ _ |- _ => destruct K as [K | K]
         | K : _ /\ _ |- _ =>
             let K' := fresh K in destruct K as [K' K]
         | K : exists _, _ |- _ =>
             let r := fresh "r" in destruct K as [r K]
         | K : False |- _ => contradiction
         | K : Resolved _ = Resolved _ |- _ => injection K as K; subst
         | K : Thrown _ = Thrown _ |- _ => injection K as K; subst
         | K : LocationHref _ = LocationHref _ |- _ =>
             injection K as K; subst
         end;
  try discriminate; try congruence; subst; simpl;
  try solve [ repeat split; eauto; try congruence
            | left; reflexivity
            | right; repeat split; eauto; try congruence
            | right; right; left; reflexivity ].

(** X1.  [login] never touches the store.  It sends the page to ["/"], and
    nowhere else, exactly when it returns [true]; the credential sign-in is
    sent exactly when the clean-up sign-out resolved (whatever it resolved
    with); and it throws [e] exactly when the clean-up rejected with [e] or
    the sign-in failed with [e]. *)
Theorem login_outcomes (email password : string)
    (cleanup : Awaited SignOutResponse) (reply : Awaited AuthResponse)
    (st : Store) :
  let out := login email password cleanup reply st in
  final out = st
  /\ (forall href,
         In (LocationHref href) (effects out)
         <-> href = "/" /\ completion out = Returned true)
  /\ (In (AuthSignInWithPassword email password) (effects out)
      <-> exists r, cleanup = Resolved r)
  /\ (forall e,
         completion out = Thrown e
         <-> cleanup = Rejected e
             \/ ((exists r, cleanup = Resolved r)
                 /\ failure_of reply = Some e)).
Proof.
  destruct cleanup as [c | ce]; simpl;
    [ destruct reply as [r | re]; simpl;
      [ destruct (error r) as [err | ] eqn:Herr; simpl;
        [ | destruct (data r) as [usr | ] eqn:Hdata; simpl ] | ] | ];
    (split; [ reflexivity | ]); (split; [ | split ]);
    try (intros x); split; intros H; outcome H.
Qed.

(** X2.  [signup] never touches the store and always sends exactly one
    sign-up request, first.  It sends the page to ["/onboarding"], and
    nowhere else, exactly when it returns [true]; it throws [e] exactly when
    the provider failed with [e]; and it returns [false] exactly when the
    provider answered without error and without a user. *)
Theorem signup_outcomes (email password username : string)
    (reply : Awaited AuthResponse) (st : Store) :
  let out := signup email password username reply st in
  final out = st
  /\ filter is_backend_call (effects out)
     = [AuthSignUp email password username]
  /\ (forall href,
         In (LocationHref href) (effects out)
         <-> href = "/onboarding" /\ completion out = Returned true)
  /\ (forall e, completion out = Thrown e <-> failure_of reply = Some e)
  /\ (completion out = Returned false
      <-> exists r, reply = Resolved r /\ error r = None /\ data r = None).
Proof.
  destruct reply as [r | re]; simpl;
    [ destruct (error r) as [err | ] eqn:Herr; simpl;
      [ | destruct (data r) as [usr | ] eqn:Hdata; simpl ] | ];
    (split; [ reflexivity | ]); (split; [ reflexivity | ]);
    (split; [ | split ]);
    try (intros x); split; intros H; outcome H.
Qed.

(** X3.  A write that fails with [e] (the call rejects, or resolves with an
    [error]) changes nothing locally: whichever of the four mutations was
    called by a user with an Identity, the store is exactly as before, the
    same [e] is thrown, and what went out is the one update keyed by the
    Identity's id followed by one console error. *)
Theorem failed_write_changes_nothing (c : Call)
    (reply : Awaited UpdateResponse) (st : Store) (u : UserProfile)
    (e : Error) :
  user st = Some u ->
  failure_of reply = Some e ->
  let out := invoke c reply st in
  final out = st
  /\ completion out = Thrown e
  /\ exists payload msg,
       effects out = [ProfilesUpdate (id u) payload; ConsoleError msg e].
Proof.
  intros Hu Hfail.
  destruct (invoke_settled c reply st u Hu) as [payload [msg ->]].
  unfold after_update.
  destruct reply as [r | re]; simpl in Hfail.
  - rewrite Hfail. simpl. repeat split. exists payload, msg. reflexivity.
  - injection Hfail as ->. simpl. repeat split.
    exists payload, msg. reflexivity.
Qed.

Lemma failed_write_changes_nothing_witness :
  let out :=
    invoke (CompleteOnboarding "A" [18; 35])
      (Resolved (mkResponse [] (Some "permission denied")))
      Samples.signed_in in
  final out = Samples.signed_in
  /\ completion out = Thrown "permission denied".
Proof.
  pose proof (failed_write_changes_nothing (CompleteOnboarding "A" [18; 35])
                (Resolved (mkResponse [] (Some "permission denied")))
                Samples.signed_in Samples.alice_profile "permission denied"
                eq_refl eq_refl) as H.
  cbv zeta in H. destruct H as [Hst [Hth _]].
  split; assumption.
Defined.

(** X4.  What is adopted is what was sent.  When the write succeeds, each of
    the four mutations has sent exactly one update, keyed by the Identity's
    id, and the new Identity is the old one overlaid with exactly the
    payload of that update; Session and loading flag are untouched. *)
Theorem adopted_is_what_was_sent (c : Call)
    (reply : Awaited UpdateResponse) (st : Store) (u : UserProfile) :
  user st = Some u ->
  failure_of reply = None ->
  exists payload,
    effects (invoke c reply st) = [ProfilesUpdate (id u) payload]
    /\ final (invoke c reply st) = setUser (Some (spread u payload)) st
    /\ completion (invoke c reply st) = Returned tt.
Proof.
  intros Hu Hok.
  destruct (invoke_settled c reply st u Hu) as [payload [msg ->]].
  exists payload. unfold after_update.
  destruct reply as [r | re]; simpl in Hok; [ | discriminate Hok ].
  rewrite Hok. simpl. repeat split.
Qed.

Lemma adopted_is_what_was_sent_witness :
  exists payload,
    effects (invoke (RemoveFromWatchlist 550) Samples.ok_other_row
               Samples.signed_in)
    = [ProfilesUpdate (id Samples.alice_profile) payload]
    /\ final (invoke (RemoveFromWatchlist 550) Samples.ok_other_row
                Samples.signed_in)
       = setUser (Some (spread Samples.alice_profile payload))
           Samples.signed_in
    /\ completion (invoke (RemoveFromWatchlist 550) Samples.ok_other_row
                     Samples.signed_in)
       = Returned tt.
Proof.
  apply (adopted_is_what_was_sent (RemoveFromWatchlist 550)
           Samples.ok_other_row Samples.signed_in Samples.alice_profile);
    reflexivity.
Defined.

(** *** The watchlist as a sequence *)

Lemma spread_idempotent (u : UserProfile) (p : PartialUserProfile) :
  spread (spread u p) p = spread u p.
Proof.
  destruct p as [pi pu pe pa pg po pw]. unfold spread. simpl.
  destruct pi, pu, pe, pa, pg, po, pw; reflexivity.
Qed.

Lemma filter_out_twice (movieId : Z) (wl : list Z) :
  filter (fun x => negb (x =? movieId)%Z)
    (filter (fun x => negb (x =? movieId)%Z) wl)
  = filter (fun x => negb (x =? movieId)%Z) wl.
Proof.
  induction wl as [ | x wl IH ]; simpl; [ reflexivity | ].
  destruct (x =? movieId)%Z eqn:E; simpl; [ exact IH | ].
  rewrite E. simpl. f_equal. exact IH.
Qed.

Lemma filter_out_absent (movieId : Z) (wl : list Z) :
  ~ In movieId wl ->
  filter (fun x => negb (x =? movieId)%Z) wl = wl.
Proof.
  induction wl as [ | x wl IH ]; simpl; intros Hnot; [ reflexivity | ].
  destruct (x =? movieId)%Z eqn:E.
  - apply Z.eqb_eq in E. exfalso. apply Hnot. left. exact E.
  - simpl. f_equal. apply IH. intros Hin. apply Hnot. right. exact Hin.
Qed.

Lemma occurrences_filter_other (movieId other : Z) (wl : list Z) :
  other <> movieId ->
  occurrences other (filter (fun x => negb (x =? movieId)%Z) wl)
  = occurrences other wl.
Proof.
  intros Hneq. unfold occurrences.
  induction wl as [ | x wl IH ]; simpl; [ reflexivity | ].
  destruct (x =? movieId)%Z eqn:E; simpl.
  - apply Z.eqb_eq in E. subst x.
    destruct (Z.eq_dec movieId other) as [Heq | _]; [ | exact IH ].
    exfalso. apply Hneq. symmetry. exact Heq.
  - destruct (Z.eq_dec x other); rewrite IH; reflexivity.
Qed.

Lemma occurrences_filter_self (movieId : Z) (wl : list Z) :
  occurrences movieId (filter (fun x => negb (x =? movieId)%Z) wl) = 0%nat.
Proof.
  unfold occurrences. apply count_occ_not_In. intros Hin.
  apply filter_In in Hin. destruct Hin as [_ Hkeep].
  rewrite Z.eqb_refl in Hkeep. discriminate Hkeep.
Qed.

(** X5.  Every mutation but [addToWatchlist] is idempotent: made a second
    time from the next render, with both writes succeeding, it leaves the
    store as the first call left it. *)
Theorem repeated_call_changes_nothing_more (c : Call)
    (r1 r2 : Awaited UpdateResponse) (st : Store) (u : UserProfile) :
  user st = Some u ->
  failure_of r1 = None ->
  failure_of r2 = None ->
  is_add c = false ->
  invoke_all [(c, r1); (c, r2)] st = invoke_all [(c, r1)] st.
Proof.
  intros Hu H1 H2 Hc.
  destruct r1 as [x1 | ]; [ | discriminate H1 ].
  destruct r2 as [x2 | ]; [ | discriminate H2 ].
  simpl in H1, H2.
  destruct c as [p | a g | m | m]; try discriminate Hc; simpl;
    unfold updateProfile, completeOnboarding, removeFromWatchlist,
      after_update;
    rewrite Hu, H1; simpl; rewrite H2; simpl;
    unfold setUser; simpl; do 2 f_equal.
  - apply spread_idempotent.
  - unfold spread. simpl. f_equal. apply filter_out_twice.
Qed.

Lemma repeated_call_changes_nothing_more_witness :
  invoke_all
    [(RemoveFromWatchlist 550, Samples.ok);
     (RemoveFromWatchlist 550, Samples.ok_other_row)]
    Samples.signed_in_twice
  = invoke_all [(RemoveFromWatchlist 550, Samples.ok)]
      Samples.signed_in_twice.
Proof.
  apply (repeated_call_changes_nothing_more (RemoveFromWatchlist 550)
           Samples.ok Samples.ok_other_row Samples.signed_in_twice
           (with_watchlist Samples.alice_profile [550; 13; 550]));
    reflexivity.
Defined.

(** X6.  [addToWatchlist] never de-duplicates.  After a successful call the
    watchlist is the old one with the id at its end: the id occurs once more
    than before (also when it was there already), it is reported as in the
    watchlist, and no other id's count has changed. *)
Theorem add_counts_once_more (movieId : Z) (reply : Awaited UpdateResponse)
    (st : Store) (u : UserProfile) :
  user st = Some u ->
  failure_of reply = None ->
  exists u',
    user (final (addToWatchlist (user st) movieId reply st)) = Some u'
    /\ watchlist u' = watchlist u ++ [movieId]
    /\ occurrences movieId (watchlist u')
       = S (occurrences movieId (watchlist u))
    /\ isInWatchlist (Some u') movieId = true
    /\ forall other,
         other <> movieId ->
         occurrences other (watchlist u') = occurrences other (watchlist u).
Proof.
  intros Hu Hok. apply write_ok_failure_of in Hok.
  change (addToWatchlist (user st) movieId reply st)
    with (invoke (call_of (Add movieId)) reply st).
  rewrite (StoreProps.invoke_watchlist_ok (Add movieId) reply st u Hu Hok).
  eexists. split; [ reflexivity | ]. simpl.
  split; [ reflexivity | ].
  unfold occurrences. split; [ | split ].
  - rewrite count_occ_app. simpl.
    destruct (Z.eq_dec movieId movieId) as [_ | Hn]; [ lia | contradiction ].
  - rewrite existsb_app. simpl. rewrite Z.eqb_refl.
    rewrite orb_true_r. reflexivity.
  - intros other Hneq. rewrite count_occ_app. simpl.
    destruct (Z.eq_dec movieId other) as [Heq | _]; [ | lia ].
    exfalso. apply Hneq. symmetry. exact Heq.
Qed.

Lemma add_counts_once_more_witness :
  exists u',
    user (final (addToWatchlist (user Samples.signed_in) 550 Samples.ok
                   Samples.signed_in))
    = Some u'
    /\ occurrences 550 (watchlist u') = 2%nat.
Proof.
  destruct (add_counts_once_more 550 Samples.ok Samples.signed_in
              Samples.alice_profile eq_refl eq_refl)
    as [u' [Hu' [_ [Hcount _]]]].
  exists u'. split; [ exact Hu' | exact Hcount ].
Defined.

(** X7.  [removeFromWatchlist] touches one id only.  After a successful
    call the id does not occur any more, every other id occurs as often as
    before, and when the id was not in the watchlist the store is exactly as
    it was. *)
Theorem remove_keeps_the_rest (movieId : Z) (reply : Awaited UpdateResponse)
    (st : Store) (u : UserProfile) :
  user st = Some u ->
  failure_of reply = None ->
  exists u',
    user (final (removeFromWatchlist (user st) movieId reply st)) = Some u'
    /\ occurrences movieId (watchlist u') = 0%nat
    /\ (forall other,
           other <> movieId ->
           occurrences other (watchlist u')
           = occurrences other (watchlist u))
    /\ (~ In movieId (watchlist u) ->
        final (removeFromWatchlist (user st) movieId reply st) = st).
Proof.
  intros Hu Hok. apply write_ok_failure_of in Hok.
  change (removeFromWatchlist (user st) movieId reply st)
    with (invoke (call_of (Remove movieId)) reply st).
  rewrite (StoreProps.invoke_watchlist_ok (Remove movieId) reply st u Hu Hok).
  eexists. split; [ reflexivity | ]. simpl.
  split; [ apply occurrences_filter_self | ].
  split; [ intros other Hneq; apply occurrences_filter_other; exact Hneq | ].
  intros Hnot. rewrite (filter_out_absent movieId (watchlist u) Hnot).
  rewrite StoreProps.with_watchlist_same.
  apply StoreProps.setUser_same. exact Hu.
Qed.

Lemma remove_keeps_the_rest_witness :
  exists u',
    user (final (removeFromWatchlist (user Samples.signed_in_twice) 550
                   Samples.ok Samples.signed_in_twice))
    = Some u'
    /\ occurrences 550 (watchlist u') = 0%nat
    /\ occurrences 13 (watchlist u') = 1%nat.
Proof.
  destruct (remove_keeps_the_rest 550 Samples.ok Samples.signed_in_twice
              (with_watchlist Samples.alice_profile [550; 13; 550])
              eq_refl eq_refl)
    as [u' [Hu' [Hgone [Hrest _]]]].
  exists u'. split; [ exact Hu' | ]. split; [ exact Hgone | ].
  rewrite (Hrest 13); [ reflexivity | discriminate ].
Defined.

(** X8.  Adding an id and then removing it is not an undo in general: it
    leaves the old watchlist without any occurrence of the id.  It gives the
    store back exactly when the id was not in the watchlist before. *)
Theorem add_then_remove (movieId : Z) (r1 r2 : Awaited UpdateResponse)
    (st : Store) (u : UserProfile) :
  user st = Some u ->
  failure_of r1 = None ->
  failure_of r2 = None ->
  let st' :=
    invoke_all
      [(AddToWatchlist movieId, r1); (RemoveFromWatchlist movieId, r2)] st in
  st'
  = setUser
      (Some (with_watchlist u
               (filter (fun x => negb (x =? movieId)%Z) (watchlist u))))
      st
  /\ (st' = st <-> ~ In movieId (watchlist u)).
Proof.
  intros Hu H1 H2 st'.
  apply write_ok_failure_of in H1. apply write_ok_failure_of in H2.
  assert (Heq : st'
                = setUser
                    (Some (with_watchlist u
                             (filter (fun x => negb (x =? movieId)%Z)
                                (watchlist u))))
                    st).
  { subst st'. simpl.
    change (addToWatchlist (user st) movieId r1 st)
      with (invoke (call_of (Add movieId)) r1 st).
    rewrite (StoreProps.invoke_watchlist_ok (Add movieId) r1 st u Hu H1).
    set (st1 := setUser _ st).
    change (removeFromWatchlist (user st1) movieId r2 st1)
      with (invoke (call_of (Remove movieId)) r2 st1).
    rewrite (StoreProps.invoke_watchlist_ok (Remove movieId) r2 st1 _
               eq_refl H2).
    subst st1. simpl. rewrite filter_app. simpl.
    rewrite Z.eqb_refl. simpl. rewrite app_nil_r. reflexivity. }
  split; [ exact Heq | ].
  rewrite Heq. split.
  - intros Hsame Hin.
    apply (f_equal user) in Hsame. simpl in Hsame. rewrite Hu in Hsame.
    injection Hsame as Hsame. apply (f_equal watchlist) in Hsame.
    simpl in Hsame.
    assert (Hzero : occurrences movieId (watchlist u) = 0%nat)
      by (rewrite <- Hsame; apply occurrences_filter_self).
    unfold occurrences in Hzero.
    apply (count_occ_not_In Z.eq_dec) in Hzero. contradiction.
  - intros Hnot. rewrite (filter_out_absent movieId (watchlist u) Hnot).
    rewrite StoreProps.with_watchlist_same.
    apply StoreProps.setUser_same. exact Hu.
Qed.

Lemma add_then_remove_witness :
  invoke_all
    [(AddToWatchlist 550, Samples.ok); (RemoveFromWatchlist 550, Samples.ok)]
    Samples.signed_in_twice
  = setUser (Some (with_watchlist Samples.alice_profile [13]))
      Samples.signed_in_twice.
Proof.
  exact (proj1 (add_then_remove 550 Samples.ok Samples.ok
                  Samples.signed_in_twice
                  (with_watchlist Samples.alice_profile [550; 13; 550])
                  eq_refl eq_refl eq_refl)).
Defined.

(** X9.  A profile update that carries no watchlist (an [updateProfile]
    without that key, or [completeOnboarding]) and a watchlist call commute:
    made one after the other in either order, with all writes succeeding,
    they leave the same store. *)
Theorem profile_and_watchlist_calls_commute (c : Call) (w : WatchlistCall)
    (r1 r2 r3 r4 : Awaited UpdateResponse) (st : Store) (u : UserProfile) :
  user st = Some u ->
  leaves_watchlist c = true ->
  failure_of r1 = None -> failure_of r2 = None ->
  failure_of r3 = None -> failure_of r4 = None ->
  invoke_all [(c, r1); (call_of w, r2)] st
  = invoke_all [(call_of w, r3); (c, r4)] st.
Proof.
  intros Hu Hc H1 H2 H3 H4.
  destruct r1 as [x1 | ]; [ | discriminate H1 ].
  destruct r2 as [x2 | ]; [ | discriminate H2 ].
  destruct r3 as [x3 | ]; [ | discriminate H3 ].
  destruct r4 as [x4 | ]; [ | discriminate H4 ].
  simpl in H1, H2, H3, H4.
  destruct u as [ui un ue ua ug uo uw].
  destruct c as [p | a g | m | m]; try discriminate Hc;
    destruct w as [k | k]; simpl;
    unfold updateProfile, completeOnboarding, addToWatchlist,
      removeFromWatchlist, after_update;
    rewrite Hu, ?H1, ?H3; simpl; rewrite ?H2, ?H4; simpl;
    try reflexivity;
    destruct p as [pi pu pe pa pg po pw]; simpl in Hc;
    destruct pw; try discriminate Hc; reflexivity.
Qed.

Lemma profile_and_watchlist_calls_commute_witness :
  invoke_all
    [(CompleteOnboarding "A" [18], Samples.ok); (AddToWatchlist 807, Samples.ok)]
    Samples.signed_in
  = invoke_all
      [(AddToWatchlist 807, Samples.ok); (CompleteOnboarding "A" [18], Samples.ok)]
      Samples.signed_in.
Proof.
  apply (profile_and_watchlist_calls_commute (CompleteOnboarding "A" [18])
           (Add 807) Samples.ok Samples.ok Samples.ok Samples.ok
           Samples.signed_in Samples.alice_profile);
    reflexivity.
Defined.

(** *** The provider's events and the loading flag *)

(** X10.  Every [SIGNED_OUT] event clears the Identity and the loading
    flag and stores the event's session, but cancels nothing: the queued
    timers and the profile selects on their way stay as they were.  So when
    the oldest such select then comes back with a row, or when a queued
    timer fires and its select comes back with a row, the Identity is set
    again while the Session is still the one of the sign-out. *)
Theorem late_profile_survives_sign_out (rt : Runtime) (s : option Session) :
  let rt1 := onAuthStateChange "SIGNED_OUT" s rt in
  store rt1 = {| user := None; session := s; loading := false |}
  /\ timers rt1 = timers rt
  /\ selects rt1 = selects rt
  /\ (forall u rest row,
         selects rt = u :: rest ->
         store (settle_select (Resolved (mkResponse (Some row) None)) rt1)
         = {| user := Some (profile_of_row u row);
              session := s;
              loading := false |})
  /\ (forall t rest row,
         timers rt = t :: rest ->
         selects rt = [] ->
         store (settle_select (Resolved (mkResponse (Some row) None))
                  (run_timer rt1))
         = {| user := Some (profile_of_row (principal t) row);
              session := s;
              loading := false |}).
Proof.
  unfold onAuthStateChange. simpl.
  split; [ reflexivity | ]. split; [ reflexivity | ].
  split; [ reflexivity | ]. split.
  - intros u rest row Hsel. unfold settle_select. simpl. rewrite Hsel.
    reflexivity.
  - intros t rest row Ht Hsel. unfold run_timer, settle_select. simpl.
    rewrite Ht. simpl. rewrite Hsel. reflexivity.
Qed.

Lemma late_profile_survives_sign_out_witness :
  let rt :=
    run [SessionReply (Resolved (Some Samples.alice_session))] mount in
  store (onAuthStateChange "SIGNED_OUT" None mount)
  = {| user := None; session := None; loading := false |}
  /\ store
       (settle_select (Resolved (mkResponse (Some Samples.alice_row) None))
          (onAuthStateChange "SIGNED_OUT" None rt))
     = {| user := Some Samples.alice_profile;
          session := None;
          loading := false |}.
Proof.
  cbv zeta. split.
  - exact (proj1 (late_profile_survives_sign_out mount None)).
  - exact (proj1 (proj2 (proj2 (proj2
             (late_profile_survives_sign_out
                (run [SessionReply (Resolved (Some Samples.alice_session))]
                   mount)
                None))))
             Samples.alice [] Samples.alice_row eq_refl).
Defined.

(** X11.  An event that is neither a sign-out nor a sign-in with a user
    principal (a token refresh, a user update, a sign-in event without a
    user) only replaces the Session and writes the log line: the Identity is
    not reloaded and nothing is queued. *)
Theorem other_events_only_replace_session (event : string)
    (s : option Session) (rt : Runtime) :
  event <> "SIGNED_OUT" ->
  event <> "SIGNED_IN" \/ user_of s = None ->
  onAuthStateChange event s rt
  = {| store := setSession s (store rt);
       getting_session := getting_session rt;
       timers := timers rt;
       selects := selects rt;
       trace := trace rt ++ [ConsoleLog "Auth state changed:"] |}.
Proof.
  intros Hout Hin. unfold onAuthStateChange.
  apply String.eqb_neq in Hout. rewrite Hout.
  destruct Hin as [Hin | Hnone].
  - apply String.eqb_neq in Hin. rewrite Hin. reflexivity.
  - rewrite Hnone. destruct (event =? "SIGNED_IN")%string; reflexivity.
Qed.

Lemma other_events_only_replace_session_witness :
  store
    (onAuthStateChange "TOKEN_REFRESHED" (Some Samples.alice_session) mount)
  = setSession (Some Samples.alice_session) (store mount).
Proof.
  rewrite (other_events_only_replace_session "TOKEN_REFRESHED"
             (Some Samples.alice_session) mount).
  - reflexivity.
  - discriminate.
  - left. discriminate.
Defined.

(** X12.  Nothing in the store turns the loading flag back on: once it is
    [false], no turn of the event loop makes it [true] again, and the
    operations of the context value leave it as it is. *)
Theorem loading_never_set_again :
  (forall (t : Tick) (rt : Runtime),
      loading (store rt) = false -> loading (store (step t rt)) = false)
  /\ (forall c reply st, loading (final (invoke c reply st)) = loading st)
  /\ (forall reply st, loading (final (logout reply st)) = loading st)
  /\ (forall e p cleanup reply st,
         loading (final (login e p cleanup reply st)) = loading st)
  /\ (forall e p n reply st,
         loading (final (signup e p n reply st)) = loading st).
Proof.
  split; [ | split; [ | split; [ | split ] ] ].
  - intros t rt Hl. destruct t as [reply | event s | | reply]; simpl.
    + unfold getSession. destruct (getting_session rt); [ | exact Hl ].
      destruct reply as [s | e]; [ | reflexivity ].
      destruct (user_of s); [ exact Hl | reflexivity ].
    + unfold onAuthStateChange.
      destruct (if (event =? "SIGNED_IN")%string then user_of s else None);
        [ exact Hl | ].
      destruct (event =? "SIGNED_OUT")%string; [ reflexivity | exact Hl ].
    + unfold run_timer. destruct (timers rt); exact Hl.
    + unfold settle_select. destruct (selects rt); [ exact Hl | ].
      destruct (loadUserProfile u reply (store rt)). reflexivity.
  - intros c reply st.
    destruct c; simpl;
      unfold updateProfile, completeOnboarding, addToWatchlist,
        removeFromWatchlist, after_update;
      destruct (user st); try reflexivity;
      destruct reply as [r | e]; try reflexivity;
      destruct (error r); reflexivity.
  - intros reply st. destruct reply; reflexivity.
  - intros e p cleanup reply st. unfold login.
    destruct cleanup; [ | reflexivity ].
    destruct reply as [r | ]; [ | reflexivity ].
    destruct (error r); [ reflexivity | ].
    destruct (data r); reflexivity.
  - intros e p n reply st. unfold signup.
    destruct reply as [r | ]; [ | reflexivity ].
    destruct (error r); [ reflexivity | ].
    destruct (data r); reflexivity.
Qed.

Lemma loading_never_set_again_witness :
  loading
    (store (step (AuthStateChange "SIGNED_IN" (Some Samples.alice_session))
              Samples.identity_without_session))
  = false.
Proof.
  apply (proj1 loading_never_set_again). reflexivity.
Defined.

(** X13.  The loading flag is never left on with nothing to turn it off: in
    every state the provider component can reach, a [true] loading flag
    comes with an unsettled [getSession()] or with a profile select still on
    its way. *)
Theorem loading_means_pending (rt : Runtime) :
  Reachable rt ->
  loading (store rt) = true ->
  getting_session rt = true \/ selects rt <> [].
Proof.
  intros Hreach. induction Hreach as [ | t rt Hreach IH ].
  - intros _. left. reflexivity.
  - destruct t as [reply | event s | | reply]; simpl.
    + unfold getSession.
      destruct (getting_session rt) eqn:Hg;
        [ | intros Hl; destruct (IH Hl) as [K | K];
            [ discriminate K | right; exact K ] ].
      destruct reply as [s | e]; simpl; [ | discriminate ].
      destruct (user_of s); simpl; [ | discriminate ].
      intros _. right. intros Hnil. apply app_eq_nil in Hnil.
      destruct Hnil as [_ Hnil]. discriminate Hnil.
    + unfold onAuthStateChange.
      destruct (if (event =? "SIGNED_IN")%string then user_of s else None);
        simpl; [ exact IH | ].
      destruct (event =? "SIGNED_OUT")%string; simpl;
        [ discriminate | exact IH ].
    + unfold run_timer. destruct (timers rt) as [ | tm rest ]; [ exact IH | ].
      simpl. intros _. right. intros Hnil. apply app_eq_nil in Hnil.
      destruct Hnil as [_ Hnil]. discriminate Hnil.
    + unfold settle_select.
      destruct (selects rt) as [ | u rest ] eqn:Hsel;
        [ intros Hl; destruct (IH Hl) as [K | K];
          [ left; exact K | exfalso; apply K; reflexivity ] | ].
      destruct (loadUserProfile u reply (store rt)). simpl. discriminate.
Qed.

Lemma loading_means_pending_witness :
  let rt :=
    run [AuthStateChange "SIGNED_IN" (Some Samples.alice_session);
         SessionReply (Resolved (Some Samples.alice_session))]
      mount in
  getting_session rt = true \/ selects rt <> [].
Proof.
  apply loading_means_pending.
  - apply StoreProps.run_reachable. constructor.
  - reflexivity.
Defined.

(** X14.  Start-up always settles.  Once [getSession()] and the profile
    select it may have sent have settled, whichever way, the loading flag is
    off and nothing is pending; the Session is the one the provider
    reported; and the Identity is set exactly when that session carries a
    user and the select came back with a row and no error. *)
Theorem startup_settles (r1 : Awaited (option Session))
    (r2 : Awaited SelectResponse) :
  let rt := run [SessionReply r1; SelectReply r2] mount in
  loading (store rt) = false
  /\ getting_session rt = false
  /\ selects rt = []
  /\ session (store rt)
     = match r1 with
       | Resolved s => s
       | Rejected _ => None
       end
  /\ user (store rt)
     = match r1 with
       | Resolved s =>
           match user_of s with
           | Some au => option_map (profile_of_row au) (row_of r2)
           | None => None
           end
       | Rejected _ => None
       end.
Proof.
  destruct r1 as [s | e]; simpl; [ | repeat split ].
  unfold getSession. simpl.
  destruct (user_of s) as [au | ] eqn:Hs; simpl; [ | repeat split ].
  unfold settle_select. simpl.
  destruct r2 as [r | e2]; simpl; [ | repeat split ].
  destruct (error r); simpl; [ repeat split | ].
  destruct (data r); simpl; repeat split.
Qed.

(** X15.  [loadUserProfile] either leaves the store as it is or installs
    the Identity built from the row: it never clears an Identity, and it
    never changes Session or loading flag.  The Identity it builds carries
    the row's id and username and a non-empty avatar. *)
Theorem loadUserProfile_installs_or_keeps (authUser : User)
    (reply : Awaited SelectResponse) (st : Store) :
  let st' := fst (loadUserProfile authUser reply st) in
  session st' = session st
  /\ loading st' = loading st
  /\ match row_of reply with
     | Some row =>
         user st' = Some (profile_of_row authUser row)
         /\ id (profile_of_row authUser row) = row_id row
         /\ username (profile_of_row authUser row) = row_username row
         /\ truthy (avatar (profile_of_row authUser row)) = true
     | None => st' = st
     end.
Proof.
  unfold loadUserProfile, row_of.
  destruct reply as [r | e]; simpl; [ | repeat split ].
  destruct (error r); simpl; [ repeat split | ].
  destruct (data r) as [row | ]; simpl; [ | repeat split ].
  repeat split.
  unfold or_str. destruct (row_avatar row) as [a | ]; [ | reflexivity ].
  destruct (truthy a) eqn:Ha; [ exact Ha | reflexivity ].
Qed.

(** X16.  A Session alone does not let the user change anything.  When the
    provider reports a session with a user at start-up but the profile
    select fails or finds no row, the store ends with that Session and no
    Identity, and there every mutation is a no-op that sends nothing and
    [isInWatchlist] is [false]. *)
Theorem session_without_profile_cannot_mutate (s : Session) (au : User)
    (r2 : Awaited SelectResponse) (c : Call)
    (reply : Awaited UpdateResponse) (movieId : Z) :
  session_user s = Some au ->
  row_of r2 = None ->
  let st := store (run [SessionReply (Resolved (Some s)); SelectReply r2]
                     mount) in
  st = {| user := None; session := Some s; loading := false |}
  /\ invoke c reply st = mkRun st [] (Returned tt)
  /\ isInWatchlist (user st) movieId = false.
Proof.
  intros Hs Hrow. simpl. unfold getSession. simpl. rewrite Hs. simpl.
  unfold settle_select. simpl.
  assert (Hst : fst (loadUserProfile au r2
                       {| user := None; session := Some s; loading := true |})
                = {| user := None; session := Some s; loading := true |}).
  { unfold loadUserProfile, row_of in *.
    destruct r2 as [r | e]; [ | reflexivity ].
    destruct (error r); [ reflexivity | ].
    destruct (data r); [ discriminate Hrow | reflexivity ]. }
  destruct (loadUserProfile au r2 _) as [st1 eff]. simpl in Hst. subst st1.
  simpl. split; [ reflexivity | ].
  split; [ destruct c; reflexivity | reflexivity ].
Qed.

Lemma session_without_profile_cannot_mutate_witness :
  let st :=
    store (run [SessionReply (Resolved (Some Samples.alice_session));
                SelectReply (Rejected "Failed to fetch")]
             mount) in
  st = {| user := None;
          session := Some Samples.alice_session;
          loading := false |}
  /\ invoke (AddToWatchlist 550) Samples.ok st = mkRun st [] (Returned tt)
  /\ isInWatchlist (user st) 550 = false.
Proof.
  apply (session_without_profile_cannot_mutate Samples.alice_session
           Samples.alice (Rejected "Failed to fetch") (AddToWatchlist 550)
           Samples.ok 550);
    reflexivity.
Defined.

End StoreMore.

(** ** The views together with the store *)

Module WiringProps.
Import Js AuthContext Wiring.

Lemma click_toggle_when_in (v : DetailPage.View) (c : DetailPage.Movie)
    (reply : Awaited UpdateResponse) (st : Store) :
  DetailPage.content v = Some c ->
  isInWatchlist (user st) (DetailPage.id c) = true ->
  click_toggle v reply st
  = final (invoke (call_of (Remove (DetailPage.id c))) reply st).
Proof.
  intros Hc Hin. unfold click_toggle, DetailPage.handleWatchlistToggle.
  rewrite Hc. destruct (user st) as [u | ] eqn:Hu; [ | discriminate Hin ].
  rewrite Hin. simpl. rewrite Hu. reflexivity.
Qed.

Lemma click_toggle_when_out (v : DetailPage.View) (c : DetailPage.Movie)
    (reply : Awaited UpdateResponse) (st : Store) (u : UserProfile) :
  DetailPage.content v = Some c ->
  user st = Some u ->
  isInWatchlist (user st) (DetailPage.id c) = false ->
  click_toggle v reply st
  = final (invoke (call_of (Add (DetailPage.id c))) reply st).
Proof.
  intros Hc Hu Hout. unfold click_toggle, DetailPage.handleWatchlistToggle.
  rewrite Hc. rewrite Hu in *. rewrite Hout. simpl. rewrite Hu. reflexivity.
Qed.

Lemma includes_after_append (movieId : Z) (wl : list Z) :
  existsb (fun x => (x =? movieId)%Z) (wl ++ [movieId]) = true.
Proof.
  rewrite existsb_app. simpl. rewrite Z.eqb_refl. apply orb_true_r.
Qed.

(** X17.  A click on the watchlist button flips membership.  On a page with
    content, for a user with an Identity and a write that succeeds, the
    title is in the watchlist after the click exactly when it was not
    before; this also holds when the title was there several times. *)
Theorem toggle_flips_membership (v : DetailPage.View) (c : DetailPage.Movie)
    (reply : Awaited UpdateResponse) (st : Store) (u : UserProfile) :
  DetailPage.content v = Some c ->
  user st = Some u ->
  failure_of reply = None ->
  isInWatchlist (user (click_toggle v reply st)) (DetailPage.id c)
  = negb (isInWatchlist (user st) (DetailPage.id c)).
Proof.
  intros Hc Hu Hok. apply StoreMore.write_ok_failure_of in Hok.
  destruct (isInWatchlist (user st) (DetailPage.id c)) eqn:E.
  - rewrite (click_toggle_when_in v c reply st Hc E).
    rewrite (StoreProps.invoke_watchlist_ok _ reply st u Hu Hok). simpl.
    apply StoreProps.includes_after_filter.
  - rewrite (click_toggle_when_out v c reply st u Hc Hu E).
    rewrite (StoreProps.invoke_watchlist_ok _ reply st u Hu Hok). simpl.
    apply includes_after_append.
Qed.

Lemma toggle_flips_membership_witness :
  isInWatchlist
    (user (click_toggle
             (DetailPage.mkView (Some Samples.fight_club) false false)
             Samples.ok Samples.signed_in_twice))
    550
  = negb (isInWatchlist (user Samples.signed_in_twice) 550).
Proof.
  apply (toggle_flips_membership
           (DetailPage.mkView (Some Samples.fight_club) false false)
           Samples.fight_club Samples.ok Samples.signed_in_twice
           (with_watchlist Samples.alice_profile [550; 13; 550]));
    reflexivity.
Defined.

(** X18.  Two clicks, the second on the page rendered after the first, give
    back the membership but not always the watchlist: afterwards the title
    occurs once if it was in the watchlist (however often) and not at all if
    it was not, and in the latter case the store is exactly as before. *)
Theorem two_toggles_normalise (v : DetailPage.View) (c : DetailPage.Movie)
    (r1 r2 : Awaited UpdateResponse) (st : Store) (u : UserProfile) :
  DetailPage.content v = Some c ->
  user st = Some u ->
  failure_of r1 = None ->
  failure_of r2 = None ->
  let st2 := click_toggle v r2 (click_toggle v r1 st) in
  exists u2,
    user st2 = Some u2
    /\ occurrences (DetailPage.id c) (watchlist u2)
       = (if isInWatchlist (user st) (DetailPage.id c) then 1 else 0)%nat
    /\ (isInWatchlist (user st) (DetailPage.id c) = false -> st2 = st).
Proof.
  intros Hc Hu H1 H2 st2. subst st2.
  apply StoreMore.write_ok_failure_of in H1.
  apply StoreMore.write_ok_failure_of in H2.
  set (m := DetailPage.id c).
  destruct (isInWatchlist (user st) m) eqn:E.
  - rewrite (click_toggle_when_in v c r1 st Hc E). fold m.
    rewrite (StoreProps.invoke_watchlist_ok _ r1 st u Hu H1).
    set (st1 := setUser _ st).
    assert (E1 : isInWatchlist (user st1) m = false)
      by (apply StoreProps.includes_after_filter).
    rewrite (click_toggle_when_out v c r2 st1 _ Hc eq_refl E1). fold m.
    rewrite (StoreProps.invoke_watchlist_ok _ r2 st1 _ eq_refl H2).
    eexists. split; [ reflexivity | ]. simpl.
    split; [ | discriminate ].
    unfold occurrences. rewrite count_occ_app.
    fold (occurrences m (filter (fun x => negb (x =? m)%Z) (watchlist u))).
    rewrite StoreMore.occurrences_filter_self. simpl.
    destruct (Z.eq_dec m m) as [_ | Hn]; [ reflexivity | contradiction ].
  - rewrite (click_toggle_when_out v c r1 st u Hc Hu E). fold m.
    rewrite (StoreProps.invoke_watchlist_ok _ r1 st u Hu H1).
    set (st1 := setUser _ st).
    assert (E1 : isInWatchlist (user st1) m = true)
      by (apply includes_after_append).
    rewrite (click_toggle_when_in v c r2 st1 Hc E1). fold m.
    rewrite (StoreProps.invoke_watchlist_ok _ r2 st1 _ eq_refl H2).
    assert (Hnot : ~ In m (watchlist u)).
    { intros Hin. apply StoreProps.includes_In in Hin.
      rewrite Hu in E. simpl in E. rewrite E in Hin. discriminate Hin. }
    assert (Hback : filter (fun x => negb (x =? m)%Z) (watchlist u ++ [m])
                    = watchlist u).
    { rewrite filter_app. simpl. rewrite Z.eqb_refl. simpl.
      rewrite app_nil_r. apply StoreMore.filter_out_absent. exact Hnot. }
    eexists. split; [ reflexivity | ]. simpl. rewrite Hback.
    split.
    + unfold occurrences. apply count_occ_not_In. exact Hnot.
    + intros _. subst st1.
      transitivity (setUser (Some (with_watchlist u (watchlist u))) st);
        [ reflexivity | ].
      rewrite StoreProps.with_watchlist_same.
      apply StoreProps.setUser_same. exact Hu.
Qed.

Lemma two_toggles_normalise_witness :
  exists u2,
    user (click_toggle
            (DetailPage.mkView (Some Samples.fight_club) false false)
            Samples.ok
            (click_toggle
               (DetailPage.mkView (Some Samples.fight_club) false false)
               Samples.ok Samples.signed_in_twice))
    = Some u2
    /\ occurrences 550 (watchlist u2) = 1%nat.
Proof.
  destruct (two_toggles_normalise
              (DetailPage.mkView (Some Samples.fight_club) false false)
              Samples.fight_club Samples.ok Samples.ok
              Samples.signed_in_twice
              (with_watchlist Samples.alice_profile [550; 13; 550])
              eq_refl eq_refl eq_refl eq_refl)
    as [u2 [Hu2 [Hocc _]]].
  exists u2. split; [ exact Hu2 | exact Hocc ].
Defined.

(** X19.  The confirmation toast does not wait for the write.  When the
    write behind a click fails, the store is exactly as before, and the
    click has nevertheless shown a non-destructive "Added to watchlist" or
    "Removed from watchlist" toast and no error toast. *)
Theorem failed_toggle_still_confirms (v : DetailPage.View)
    (c : DetailPage.Movie) (reply : Awaited UpdateResponse) (st : Store)
    (u : UserProfile) (e : Error) :
  DetailPage.content v = Some c ->
  user st = Some u ->
  failure_of reply = Some e ->
  click_toggle v reply st = st
  /\ exists t,
       filter is_toast (DetailPage.handleWatchlistToggle (user st) v)
       = [DetailPage.Toast t]
       /\ DetailPage.destructive t = false
       /\ (DetailPage.toast_title t = "Added to watchlist"
           \/ DetailPage.toast_title t = "Removed from watchlist").
Proof.
  intros Hc Hu Hfail. split.
  - assert (Hkeep : forall w, final (invoke (call_of w) reply st) = st).
    { intros w.
      destruct (StoreMore.invoke_settled (call_of w) reply st u Hu)
        as [payload [msg ->]].
      unfold after_update. destruct reply as [r | re]; simpl in Hfail.
      - rewrite Hfail. reflexivity.
      - reflexivity. }
    destruct (isInWatchlist (user st) (DetailPage.id c)) eqn:E.
    + rewrite (click_toggle_when_in v c reply st Hc E). apply Hkeep.
    + rewrite (click_toggle_when_out v c reply st u Hc Hu E). apply Hkeep.
  - unfold DetailPage.handleWatchlistToggle. rewrite Hc, Hu.
    destruct (isInWatchlist (Some u) (DetailPage.id c));
      eexists; simpl; (split; [ reflexivity | ]); simpl; auto.
Qed.

Lemma failed_toggle_still_confirms_witness :
  click_toggle (DetailPage.mkView (Some Samples.fight_club) false false)
    (Rejected "Failed to fetch") Samples.signed_in
  = Samples.signed_in.
Proof.
  exact (proj1 (failed_toggle_still_confirms
                  (DetailPage.mkView (Some Samples.fight_club) false false)
                  Samples.fight_club (Rejected "Failed to fetch")
                  Samples.signed_in Samples.alice_profile "Failed to fetch"
                  eq_refl eq_refl eq_refl)).
Defined.

(** X20.  The signup form end to end.  A submission whose passwords differ
    or are shorter than 6 sends nothing to the provider.  Any other
    submission sends exactly one sign-up request, with the form's email,
    password and username in that order, and the page is sent to
    ["/onboarding"] exactly when the provider answers without error and
    with a user. *)
Theorem submission_end_to_end (reply : Awaited AuthResponse) (st : Store)
    (f : SignupForm.Form) :
  let log := snd (SignupForm.handleSubmit (signup_of reply st) f) in
  let sent := store_effects reply st log in
  if (SignupForm.password f =? SignupForm.confirmPassword f)%string
     && (6 <=? String.length (SignupForm.password f))%nat
  then
    filter is_backend_call sent
    = [AuthSignUp (SignupForm.email f) (SignupForm.password f)
         (SignupForm.username f)]
    /\ (In (LocationHref "/onboarding") sent
        <-> exists r usr,
              reply = Resolved r /\ error r = None /\ data r = Some usr)
  else sent = [].
Proof.
  cbv zeta. unfold SignupForm.handleSubmit, signup_of.
  destruct (SignupForm.password f =? SignupForm.confirmPassword f)%string;
    cbn [andb negb]; [ | reflexivity ].
  destruct (6 <=? String.length (SignupForm.password f))%nat eqn:Hlen.
  2: { apply Nat.leb_gt in Hlen. apply Nat.ltb_lt in Hlen.
       rewrite Hlen. reflexivity. }
  apply Nat.leb_le in Hlen. apply Nat.ltb_ge in Hlen. rewrite Hlen.
  unfold store_effects, signup.
  destruct reply as [r | re]; simpl.
  - destruct (error r) as [err | ] eqn:Herr; simpl.
    + split; [ reflexivity | ]. split.
      * intros [H | [H | H]]; try discriminate H; contradiction.
      * intros [r' [usr [H1 [H2 _]]]]. injection H1 as <-. congruence.
    + destruct (data r) as [usr | ] eqn:Hdata; simpl.
      * split; [ reflexivity | ]. split.
        -- intros _. exists r, usr. auto.
        -- intros _. right. left. reflexivity.
      * split; [ reflexivity | ]. split.
        -- intros [H | H]; [ discriminate H | contradiction ].
        -- intros [r' [usr [H1 [_ H3]]]]. injection H1 as <-. congruence.
  - split; [ reflexivity | ]. split.
    + intros [H | [H | H]]; try discriminate H; contradiction.
    + intros [r' [usr [H1 _]]]. discriminate H1.
Qed.

End WiringProps.

(** ** Further properties of the signup form *)

Module SignupMore.
Import Js SignupForm.

(** X21.  A submission with matching passwords of length 6 or more calls
    [signup] exactly once, with the form's email, password and username in
    that order, after [preventDefault]; it ends with the loading flag off
    whether [signup] returns or throws, and an error thrown by [signup] is
    written to the console. *)
Theorem valid_submission_calls_signup_once
    (signup : string -> string -> string -> Completion bool) (f : Form) :
  password f = confirmPassword f ->
  (6 <= String.length (password f))%nat ->
  let out := handleSubmit signup f in
  filter is_signup (snd out) = [Signup (email f) (password f) (username f)]
  /\ hd_error (snd out) = Some PreventDefault
  /\ isLoading (fst out) = false
  /\ forall e,
       signup (email f) (password f) (username f) = Thrown e ->
       In (ConsoleError "Signup failed:" e) (snd out).
Proof.
  intros Heq Hlen. unfold handleSubmit.
  apply String.eqb_eq in Heq. rewrite Heq. simpl.
  apply Nat.ltb_ge in Hlen. rewrite Hlen.
  destruct (signup (email f) (password f) (username f)) as [b | e'];
    simpl; repeat split; try discriminate.
  intros e He. injection He as ->. right. right. left. reflexivity.
Qed.

Lemma valid_submission_calls_signup_once_witness :
  let out :=
    handleSubmit (fun _ _ _ => Thrown "User already registered")
      (Samples.sample_form "abcdef" "abcdef") in
  filter is_signup (snd out)
  = [Signup "alice@example.com" "abcdef" "alice"]
  /\ isLoading (fst out) = false
  /\ In (ConsoleError "Signup failed:" "User already registered") (snd out).
Proof.
  pose proof (valid_submission_calls_signup_once
                (fun _ _ _ => Thrown "User already registered")
                (Samples.sample_form "abcdef" "abcdef") eq_refl
                (le_n 6)) as H.
  cbv zeta in H. destruct H as [Hcall [_ [Hload Hlog]]].
  split; [ exact Hcall | ]. split; [ exact Hload | ].
  apply Hlog. reflexivity.
Defined.

(** X22.  A submission never edits what the user typed: username, email,
    both passwords and the show-password switch come out as they went in,
    also after a successful signup.  A submission that does not reach
    [signup] is silent: the form is unchanged and [preventDefault] is all
    that happened. *)
Theorem submission_keeps_the_fields
    (signup : string -> string -> string -> Completion bool) (f : Form) :
  let out := handleSubmit signup f in
  (username (fst out) = username f
   /\ email (fst out) = email f
   /\ password (fst out) = password f
   /\ confirmPassword (fst out) = confirmPassword f
   /\ showPassword (fst out) = showPassword f)
  /\ (invokes_signup (snd out) = false -> out = (f, [PreventDefault])).
Proof.
  unfold handleSubmit.
  destruct (password f =? confirmPassword f)%string; simpl;
    [ | repeat split ].
  destruct (String.length (password f) <? 6)%nat; simpl; [ repeat split | ].
  destruct (signup (email f) (password f) (username f)); simpl;
    repeat split; discriminate.
Qed.

Lemma submission_keeps_the_fields_witness :
  handleSubmit (fun _ _ _ => Returned true)
    (Samples.sample_form "abcdef" "abcde")
  = (Samples.sample_form "abcdef" "abcde", [PreventDefault]).
Proof.
  apply (proj2 (submission_keeps_the_fields (fun _ _ _ => Returned true)
                  (Samples.sample_form "abcdef" "abcde"))).
  reflexivity.
Defined.

End SignupMore.

(** ** Further properties of the detail view *)

Module DetailMore.
Import Js DetailPage Wiring.

Lemma truthy_or_str (a : option string) (b : string) :
  truthy b = true -> truthy (or_str a b) = true.
Proof.
  intros Hb. unfold or_str. destruct a as [s | ]; [ | exact Hb ].
  destruct (truthy s) eqn:Hs; [ exact Hs | exact Hb ].
Qed.

(** X23.  What the watchlist button shows is what a click on it does.  For
    a user with an Identity on a page with content, the button is there, it
    reads "In Watchlist" exactly when [isInWatchlist] holds for the title,
    and a click asks for exactly one mutation: a removal when it reads "In
    Watchlist", an addition otherwise. *)
Theorem button_matches_click (getFullYear : string -> option Z)
    (u : AuthContext.UserProfile) (type : Kind) (c : Movie) (v : View) :
  content v = Some c ->
  let inList := AuthContext.isInWatchlist (Some u) (id c) in
  watchlist_button (details getFullYear (Some u) type c v) = Element inList
  /\ filter mutates_watchlist (handleWatchlistToggle (Some u) v)
     = [if inList then RemoveFromWatchlist (id c)
        else AddToWatchlist (id c)].
Proof.
  intros Hc inList. split; [ reflexivity | ].
  unfold handleWatchlistToggle. rewrite Hc. fold inList.
  destruct inList; reflexivity.
Qed.

Lemma button_matches_click_witness :
  watchlist_button
    (details Samples.utc_year (Some Samples.alice_profile) movie
       Samples.fight_club (mkView (Some Samples.fight_club) false false))
  = Element true
  /\ filter mutates_watchlist
       (handleWatchlistToggle (Some Samples.alice_profile)
          (mkView (Some Samples.fight_club) false false))
     = [RemoveFromWatchlist 550].
Proof.
  apply (button_matches_click Samples.utc_year Samples.alice_profile movie
           Samples.fight_club (mkView (Some Samples.fight_club) false false)).
  reflexivity.
Defined.

(** X24.  The effect of a visit always ends with the loading flag off, so
    the page never stays on the loading screen; it never touches the
    playing flag; and the content changes only by a fetch that resolved, to
    what it resolved with. *)
Theorem visit_always_ends_loading (getFullYear : string -> option Z)
    (user : option AuthContext.UserProfile) (type : Kind)
    (id : option string) (reply : Awaited Movie) (v : View) :
  let v' := fst (visit type id reply v) in
  loading v' = false
  /\ isPlaying v' = isPlaying v
  /\ (content v' = content v
      \/ exists m,
           reply = Resolved m /\ has_id id = true /\ content v' = Some m)
  /\ render getFullYear user type id v' <> LoadingScreen.
Proof.
  assert (H : loading (fst (visit type id reply v)) = false
              /\ isPlaying (fst (visit type id reply v)) = isPlaying v
              /\ (content (fst (visit type id reply v)) = content v
                  \/ exists m,
                       reply = Resolved m /\ has_id id = true
                       /\ content (fst (visit type id reply v)) = Some m)).
  { unfold visit, fetchContent, has_id.
    destruct id as [i | ]; simpl; [ | auto ].
    destruct (truthy i) eqn:Hi; simpl; [ | auto ].
    destruct reply as [m | e]; simpl; [ | auto ].
    split; [ reflexivity | ]. split; [ reflexivity | ].
    right. exists m. auto. }
  destruct H as [Hl [Hp Hc]]. cbv zeta.
  split; [ exact Hl | ]. split; [ exact Hp | ]. split; [ exact Hc | ].
  unfold render. rewrite Hl.
  destruct (content (fst (visit type id reply v))); discriminate.
Qed.

(** X25.  Without a route parameter (missing or empty) a visit asks the
    metadata service for nothing and shows no toast; it only turns the
    loading flag off, so a page without content shows "not found". *)
Theorem visit_without_id_sends_nothing (getFullYear : string -> option Z)
    (user : option AuthContext.UserProfile) (type : Kind)
    (id : option string) (reply : Awaited Movie) (v : View) :
  has_id id = false ->
  let out := visit type id reply v in
  fst out = setLoading false v
  /\ filter is_request (snd out) = []
  /\ filter is_toast (snd out) = []
  /\ (content v = None ->
      render getFullYear user type id (fst out) = NotFound type id "/").
Proof.
  intros Hid. unfold visit. rewrite Hid. simpl. repeat split.
  intros Hc. unfold render. simpl. rewrite Hc. reflexivity.
Qed.

Lemma visit_without_id_sends_nothing_witness :
  render Samples.utc_year None tv (Some "")
    (fst (visit tv (Some "") (Resolved Samples.fight_club) initial))
  = NotFound tv (Some "") "/".
Proof.
  apply (visit_without_id_sends_nothing Samples.utc_year None tv (Some "")
           (Resolved Samples.fight_club) initial);
    reflexivity.
Defined.

(** X26.  A visit with a route parameter sends exactly one request, chosen
    by the path alone: movie details under ["/movie/"], TV details under
    ["/tv/"] and under every other path that does not begin with
    ["/movie/"]; whether the request then succeeds plays no part. *)
Theorem visit_requests_by_route (rest i : string) (reply : Awaited Movie)
    (v : View) :
  truthy i = true ->
  filter is_request
    (snd (visit (type_of ("/movie/" ++ rest)) (Some i) reply v))
  = [GetMovieDetails i]
  /\ filter is_request
       (snd (visit (type_of ("/tv/" ++ rest)) (Some i) reply v))
     = [GetTVDetails i]
  /\ forall pathname,
       String.prefix "/movie/" pathname = false ->
       filter is_request (snd (visit (type_of pathname) (Some i) reply v))
       = [GetTVDetails i].
Proof.
  intros Hi.
  assert (Hreq : forall type,
             filter is_request (snd (visit type (Some i) reply v))
             = [match type with
                | movie => GetMovieDetails i
                | tv => GetTVDetails i
                end]).
  { intros type. unfold visit, fetchContent, has_id. rewrite Hi. simpl.
    destruct reply; destruct type; reflexivity. }
  split; [ | split ].
  - rewrite Hreq. unfold type_of. destruct rest; reflexivity.
  - rewrite Hreq. unfold type_of. destruct rest; reflexivity.
  - intros pathname Hp. rewrite Hreq. unfold type_of. rewrite Hp.
    reflexivity.
Qed.

Lemma visit_requests_by_route_witness :
  filter is_request
    (snd (visit (type_of "/movie/550") (Some "550")
            (Rejected "Network Error") initial))
  = [GetMovieDetails "550"]
  /\ filter is_request
       (snd (visit (type_of "/movies/550") (Some "550")
               (Rejected "Network Error") initial))
     = [GetTVDetails "550"].
Proof.
  destruct (visit_requests_by_route "550" "550" (Rejected "Network Error")
              initial eq_refl)
    as [Hmovie [_ Hother]].
  split; [ exact Hmovie | ].
  apply Hother. reflexivity.
Defined.

(** X27.  Playback is gated by the Identity at the click.  On a page with
    content, "watch" by a user with an Identity shows no toast and the page
    then renders the player for the displayed title and the content's id;
    without an Identity the view is left as it is and the "Sign in
    required" toast is all that happens. *)
Theorem watch_needs_identity (getFullYear : string -> option Z)
    (type : Kind) (id : option string) (c : Movie) (v : View) :
  loading v = false ->
  content v = Some c ->
  (forall u,
      let out := handleWatch (Some u) v in
      snd out = []
      /\ render getFullYear (Some u) type id (fst out)
         = DetailScreen (details getFullYear (Some u) type c (fst out))
      /\ player (details getFullYear (Some u) type c (fst out))
         = Element (mkPlayer (display_title c) (DetailPage.id c) type))
  /\ handleWatch None v = (v, [Toast sign_in_to_watch]).
Proof.
  intros Hl Hc. split; [ | reflexivity ].
  intros u. simpl. split; [ reflexivity | ].
  split; [ | reflexivity ].
  unfold render. simpl. rewrite Hl, Hc. reflexivity.
Qed.

Lemma watch_needs_identity_witness :
  player
    (details Samples.utc_year (Some Samples.alice_profile) movie
       Samples.fight_club
       (fst (handleWatch (Some Samples.alice_profile)
               (mkView (Some Samples.fight_club) false false))))
  = Element (mkPlayer "Fight Club" 550 movie).
Proof.
  destruct (watch_needs_identity Samples.utc_year movie (Some "550")
              Samples.fight_club
              (mkView (Some Samples.fight_club) false false)
              eq_refl eq_refl)
    as [Hin _].
  exact (proj2 (proj2 (Hin Samples.alice_profile))).
Defined.

(** X28.  The gate is not checked again.  Once the playing flag is on, every
    later visit that fetches a title renders the player for that new title,
    for any user, also for one without an Identity. *)
Theorem player_outlives_title_and_identity
    (getFullYear : string -> option Z)
    (user : option AuthContext.UserProfile) (type : Kind) (i : string)
    (m : Movie) (v : View) :
  isPlaying v = true ->
  truthy i = true ->
  let v' := fst (visit type (Some i) (Resolved m) v) in
  render getFullYear user type (Some i) v'
  = DetailScreen (details getFullYear user type m v')
  /\ player (details getFullYear user type m v')
     = Element (mkPlayer (display_title m) (id m) type).
Proof.
  intros Hp Hi v'. subst v'.
  rewrite (DetailProps.visit_resolved type i m v Hi).
  split; [ reflexivity | ]. simpl. rewrite Hp. reflexivity.
Qed.

Lemma player_outlives_title_and_identity_witness :
  let v :=
    fst (handleWatch (Some Samples.alice_profile)
           (mkView (Some Samples.fight_club) false false)) in
  let v' := fst (visit tv (Some "551") (Resolved Samples.untitled) v) in
  player (details Samples.utc_year None tv Samples.untitled v')
  = Element (mkPlayer "Pilot" 551 tv).
Proof.
  exact (proj2 (player_outlives_title_and_identity Samples.utc_year None tv
                  "551" Samples.untitled
                  (fst (handleWatch (Some Samples.alice_profile)
                          (mkView (Some Samples.fight_club) false false)))
                  eq_refl eq_refl)).
Defined.

(** X29.  The heading is never empty and follows a fixed order: a
    non-empty [title] is shown as it is; when the [title] is missing or
    empty, a non-empty [name] is shown; and only when both are missing or
    empty the literal "Unknown Title" is shown. *)
Theorem heading_never_empty (c : Movie) :
  truthy (display_title c) = true
  /\ (forall t,
         title c = Some t -> truthy t = true -> display_title c = t)
  /\ (forall n,
         title c = None \/ title c = Some "" ->
         name c = Some n -> truthy n = true ->
         display_title c = n)
  /\ (title c = None \/ title c = Some "" ->
      name c = None \/ name c = Some "" ->
      display_title c = "Unknown Title").
Proof.
  split; [ | split; [ | split ] ].
  - unfold display_title. apply truthy_or_str. apply truthy_or_str.
    reflexivity.
  - intros t Ht Htt. unfold display_title, or_str. rewrite Ht, Htt.
    reflexivity.
  - intros n Ht Hn Hnt. unfold display_title, or_str.
    destruct Ht as [Ht | Ht]; rewrite Ht, Hn; simpl; rewrite Hnt;
      reflexivity.
  - intros Ht Hn. unfold display_title, or_str.
    destruct Ht as [Ht | Ht]; destruct Hn as [Hn | Hn]; rewrite Ht, Hn;
      reflexivity.
Qed.

(** X30.  The genre and cast sections are shown only with something in
    them.  The genre chips are the genre names in order.  The cast section
    holds the first 12 members of the cast, in order: its cards are a prefix
    of the cast, as many as the cast has members up to 12. *)
Theorem sections_nonempty_cast_capped (getFullYear : string -> option Z)
    (user : option AuthContext.UserProfile) (type : Kind) (c : Movie)
    (v : View) :
  match cast_cards (details getFullYear user type c v) with
  | Element cards =>
      cards <> []
      /\ (List.length cards <= 12)%nat
      /\ exists rest,
           credits_cast c = Some (cards ++ rest)
           /\ List.length cards = Nat.min 12 (List.length (cards ++ rest))
  | Nothing => credits_cast c = None \/ credits_cast c = Some []
  | Text _ => False
  end
  /\ match genre_chips (details getFullYear user type c v) with
     | Element chips =>
         chips <> []
         /\ exists gs, genres c = Some gs /\ chips = map genre_name gs
     | Nothing => genres c = None \/ genres c = Some []
     | Text _ => False
     end.
Proof.
  unfold details. cbn [cast_cards genre_chips]. unfold list_slot. split.
  - destruct (credits_cast c) as [[ | a cast] | ]; [ auto | | auto ].
    split; [ change (a :: firstn 11 cast <> []); discriminate | ].
    split; [ apply firstn_le_length | ].
    exists (skipn 12 (a :: cast)). rewrite firstn_skipn.
    split; [ reflexivity | apply length_firstn ].
  - destruct (genres c) as [[ | g gs] | ]; [ auto | | auto ].
    split; [ discriminate | ].
    exists (g :: gs). split; reflexivity.
Qed.

End DetailMore.
